(** * ZeroconfScan: the mDNS wire decoder (DNS.go) and the capture loop (scan.go)

    A shallow embedding of the Go sources.

    - A [[]byte] is a [list byte].  Every buffer the decoder sees is
      [m.raw_msg], which [DNSMessage.FromBytes] allocates with
      [make([]byte, len(bytes))]: its capacity equals its length, so a slice
      expression [b[lo:hi]] is in range exactly when [0 <= lo <= hi <= len b].
    - Go's [int] is 64 bits wide; every offset below is bounded by the buffer
      length plus a few 16-bit quantities, so [Z] arithmetic never wraps.
    - A Go run-time panic (index or slice bounds out of range) ends the
      computation; it is the [Panicked] outcome.  [parse_labels] loops and
      recurses without a measure, so the embedding takes a fuel argument: one
      unit per loop iteration and per recursive call.  [OutOfFuel] for every
      fuel is a run that never returns. *)

From Stdlib Require Import ZArith List Bool Lia Arith DecimalString.
From Stdlib.Strings Require Import String Byte.
Import ListNotations.

Open Scope Z_scope.

(** ** Outcomes of Go code that may panic or run forever *)

Inductive panic : Type :=
| IndexOutOfRange
| SliceBoundsOutOfRange.

Inductive outcome (A : Type) : Type :=
| Done (a : A)
| Panicked (p : panic)
| OutOfFuel.

Arguments Done {A} a.
Arguments Panicked {A} p.
Arguments OutOfFuel {A}.

Definition bind {A B : Type} (m : outcome A) (k : A -> outcome B) : outcome B :=
  match m with
  | Done a => k a
  | Panicked p => Panicked p
  | OutOfFuel => OutOfFuel
  end.

Notation "x <- m ;; k" := (bind m (fun x => k))
  (at level 61, m at next level, right associativity).
Notation "' p <- m ;; k" := (bind m (fun x => match x with p => k end))
  (at level 61, p pattern, m at next level, right associativity).

(** The run came to an end: it returned or it panicked. *)
Definition terminated {A : Type} (r : outcome A) : Prop :=
  match r with
  | OutOfFuel => False
  | _ => True
  end.

(** The run ended in a run-time panic, which nothing in the program recovers. *)
Definition crashed {A : Type} (r : outcome A) : Prop :=
  match r with
  | Panicked _ => True
  | _ => False
  end.

Definition returned {A : Type} (r : outcome A) : Prop :=
  match r with
  | Done _ => True
  | _ => False
  end.

(** ** Byte slices *)

Definition len (b : list byte) : Z := Z.of_nat (List.length b).

Definition byte_val (x : byte) : Z := Z.of_N (Byte.to_N x).

(** [b[i]] *)
Definition index (b : list byte) (i : Z) : outcome byte :=
  if (0 <=? i) && (i <? len b)
  then match nth_error b (Z.to_nat i) with
       | Some x => Done x
       | None => Panicked IndexOutOfRange
       end
  else Panicked IndexOutOfRange.

(** [b[lo:hi]] *)
Definition slice (b : list byte) (lo hi : Z) : outcome (list byte) :=
  if (0 <=? lo) && (lo <=? hi) && (hi <=? len b)
  then Done (firstn (Z.to_nat (hi - lo)) (skipn (Z.to_nat lo) b))
  else Panicked SliceBoundsOutOfRange.

(** [b[lo:]] *)
Definition slice_from (b : list byte) (lo : Z) : outcome (list byte) :=
  slice b lo (len b).

(** [binary.BigEndian.Uint16]: the bounds hint [_ = b[1]], then
    [uint16(b[1]) | uint16(b[0])<<8]. *)
Definition Uint16 (s : list byte) : outcome Z :=
  match s with
  | b0 :: b1 :: _ => Done (Z.lor (byte_val b1) (Z.shiftl (byte_val b0) 8))
  | _ => Panicked IndexOutOfRange
  end.

(** [binary.BigEndian.Uint32]: the bounds hint [_ = b[3]]. *)
Definition Uint32 (s : list byte) : outcome Z :=
  match s with
  | b0 :: b1 :: b2 :: b3 :: _ =>
      Done (Z.lor (Z.lor (Z.lor (byte_val b3) (Z.shiftl (byte_val b2) 8))
                         (Z.shiftl (byte_val b1) 16))
                  (Z.shiftl (byte_val b0) 24))
  | _ => Panicked IndexOutOfRange
  end.

(** [binary.BigEndian.Uint16(b[i:])] *)
Definition Uint16_at (b : list byte) (i : Z) : outcome Z :=
  s <- slice_from b i ;; Uint16 s.

(** [binary.BigEndian.Uint32(b[i:])] *)
Definition Uint32_at (b : list byte) (i : Z) : outcome Z :=
  s <- slice_from b i ;; Uint32 s.

(** [string(bs)]; [strings.Join(l, sep)] is [String.concat sep l]. *)
Definition go_string (bs : list byte) : string := string_of_list_byte bs.

Definition Join (l : list string) (sep : string) : string := String.concat sep l.

(** ** Record types (DNS.go, const block) *)

Definition A : Z := 1.
Definition PTR : Z := 12.
Definition TXT : Z := 16.
Definition AAAA : Z := 28.
Definition SRV : Z := 33.

(** ** parse_labels *)

Definition ptr_bits : Z := 0xc0.
Definition idx_bits : Z := 0x3FFF.

(** The body of the [for] loop of [parse_labels], with the labels gathered
    so far; the recursive call on a compression pointer starts again from an
    empty list. *)
Fixpoint parse_labels_loop (fuel : nat) (i max_i : Z) (b : list byte)
    (allow_ptr : bool) (results : list string) : outcome (Z * list string) :=
  match fuel with
  | O => OutOfFuel
  | S fuel' =>
      if (max_i >? 0) && (i >=? max_i) then Done (max_i + 1, results)
      else
        bi <- index b i ;;
        if allow_ptr && (Z.land (byte_val bi) ptr_bits =? ptr_bits) then
          w <- Uint16_at b i ;;
          let u16 := Z.land w idx_bits in
          let i := i + 2 in
          '(_, new_results) <- parse_labels_loop fuel' u16 max_i b allow_ptr [] ;;
          Done (i, results ++ new_results)
        else
          let l := byte_val bi in
          let i := i + 1 in
          if l =? 0 then Done (i, results)
          else
            s <- slice b i (i + l) ;;
            let new_string := go_string s in
            let results := results ++ [new_string] in
            let i := i + l in
            parse_labels_loop fuel' i max_i b allow_ptr results
  end.

Definition parse_labels (fuel : nat) (i max_i : Z) (b : list byte)
    (allow_ptr : bool) : outcome (Z * list string) :=
  parse_labels_loop fuel i max_i b allow_ptr [].

(** ** DNS resource record header (also the whole entry of a question) *)

Record DNSRRHeader : Type := mkDNSRRHeader {
  Name : string;
  Type_ : Z;
  Class_ : Z
}.

(** [DNSRRHeader.FromBytes] assigns all three fields of its receiver, so the
    embedding returns the header it builds together with the next offset. *)
Definition DNSRRHeader_FromBytes (fuel : nat) (i : Z) (b : list byte)
    : outcome (Z * DNSRRHeader) :=
  '(i, l) <- parse_labels fuel i (-1) b true ;;
  let name := Join l "." in
  type <- Uint16_at b i ;;
  let i := i + 2 in
  class <- Uint16_at b i ;;
  let i := i + 2 in
  Done (i, {| Name := name; Type_ := type; Class_ := class |}).

(** ** DNS resource record *)

Definition v4InV6Prefix : list byte :=
  [x00; x00; x00; x00; x00; x00; x00; x00; x00; x00; xff; xff].

(** [net.IPv4(a, b, c, d)]: the 16-byte form of an IPv4 address. *)
Definition IPv4 (a b c d : byte) : list byte := v4InV6Prefix ++ [a; b; c; d].

(** The dynamic type held by the [Payload interface{}] field; [PayloadNil] is
    the nil interface value of a record whose type no [case] matched. *)
Inductive payload : Type :=
| PayloadNil
| DNSPayloadA (IP : list byte)
| DNSPayloadAAAA (IP : list byte)
| DNSPayloadPtr (Text : string)
| DNSPayloadTxt (Text : string)
| DNSPayloadSrv (Priority Weight Port : Z) (Text : string).

Record DNSRR : Type := mkDNSRR {
  RR_Header : DNSRRHeader;
  TTL : Z;
  Payload : payload;
  raw_payload : list byte
}.

(** [DNSRR{}] *)
Definition DNSRR_zero : DNSRR :=
  {| RR_Header := {| Name := ""; Type_ := 0; Class_ := 0 |};
     TTL := 0; Payload := PayloadNil; raw_payload := [] |}.

(** The [switch rr.Header.Type] of [DNSRR.FromBytes]: the payload the record
    holds afterwards, [old] when no case matches.  [i] is the offset of the
    rdata. *)
Definition decode_payload (fuel : nat) (type : Z) (i rdlen : Z) (b : list byte)
    (old : payload) : outcome payload :=
  if type =? A then
    b0 <- index b (i + 0) ;;
    b1 <- index b (i + 1) ;;
    b2 <- index b (i + 2) ;;
    b3 <- index b (i + 3) ;;
    Done (DNSPayloadA (IPv4 b0 b1 b2 b3))
  else if type =? PTR then
    '(_, l) <- parse_labels fuel i (i + rdlen) b true ;;
    Done (DNSPayloadPtr (Join l "."))
  else if type =? TXT then
    '(_, l) <- parse_labels fuel i (i + rdlen) b false ;;
    Done (DNSPayloadTxt (Join l " "))
  else if type =? AAAA then
    ip <- slice b i (i + 16) ;;
    Done (DNSPayloadAAAA ip)
  else if type =? SRV then
    '(_, l) <- parse_labels fuel (i + 6) (i + rdlen) b true ;;
    priority <- Uint16_at b i ;;
    weight <- Uint16_at b (i + 2) ;;
    port <- Uint16_at b (i + 4) ;;
    Done (DNSPayloadSrv priority weight port (Join l " "))
  else Done old.

Definition DNSRR_FromBytes (fuel : nat) (rr : DNSRR) (i : Z) (b : list byte)
    : outcome (Z * DNSRR) :=
  '(i, hdr) <- DNSRRHeader_FromBytes fuel i b ;;
  ttl <- Uint32_at b i ;;
  let i := i + 4 in
  rdlen <- Uint16_at b i ;;
  let i := i + 2 in
  raw <- slice b i (i + rdlen) ;;
  p <- decode_payload fuel (Type_ hdr) i rdlen b (Payload rr) ;;
  let i := i + rdlen in
  Done (i, {| RR_Header := hdr; TTL := ttl; Payload := p; raw_payload := raw |}).

(** ** DNS message header *)

Record DNSMessageHeader : Type := mkDNSMessageHeader {
  Identification : Z;
  Flags : Z;
  QuestionCount : Z;
  AnswerCount : Z;
  AuthorityCount : Z;
  AdditionalCount : Z
}.

(** The loop over the six field pointers, unrolled. *)
Definition DNSMessageHeader_FromBytes (i : Z) (b : list byte)
    : outcome (Z * DNSMessageHeader) :=
  id <- Uint16_at b i ;;
  let i := i + 2 in
  fl <- Uint16_at b i ;;
  let i := i + 2 in
  qd <- Uint16_at b i ;;
  let i := i + 2 in
  an <- Uint16_at b i ;;
  let i := i + 2 in
  ns <- Uint16_at b i ;;
  let i := i + 2 in
  ar <- Uint16_at b i ;;
  let i := i + 2 in
  Done (i, {| Identification := id; Flags := fl; QuestionCount := qd;
              AnswerCount := an; AuthorityCount := ns; AdditionalCount := ar |}).

(** ** DNS message *)

Record DNSMessage : Type := mkDNSMessage {
  Header : DNSMessageHeader;
  Question : list DNSRRHeader;
  Answer : list DNSRR;
  Authority : list DNSRR;
  Additional : list DNSRR;
  raw_msg : list byte
}.

(** The zero value [DNSMessage{}], as [msg_loop] hands it to [FromBytes]. *)
Definition DNSMessage_zero : DNSMessage :=
  {| Header := {| Identification := 0; Flags := 0; QuestionCount := 0;
                  AnswerCount := 0; AuthorityCount := 0; AdditionalCount := 0 |};
     Question := []; Answer := []; Authority := []; Additional := [];
     raw_msg := [] |}.

(** [for j := uint16(0); j < count; j++ { x := T{}; i = x.FromBytes(i, b);
    section = append(section, x) }].  [count] is a 16-bit value and [j] stops
    below it, so [j++] never wraps and the body runs [count] times. *)
Fixpoint decode_section {T : Type} (n : nat) (dec : Z -> outcome (Z * T))
    (i : Z) (section : list T) : outcome (Z * list T) :=
  match n with
  | O => Done (i, section)
  | S n' =>
      '(i, x) <- dec i ;;
      decode_section n' dec i (section ++ [x])
  end.

(** [DNSMessage.FromBytes], with the final value of its local cursor [i]. *)
Definition DNSMessage_FromBytes_cursor (fuel : nat) (m : DNSMessage)
    (bytes : list byte) : outcome (Z * DNSMessage) :=
  let raw := bytes in
  '(i, h) <- DNSMessageHeader_FromBytes 0 raw ;;
  '(i, qs) <- decode_section (Z.to_nat (QuestionCount h))
                (fun i => DNSRRHeader_FromBytes fuel i raw) i (Question m) ;;
  '(i, an) <- decode_section (Z.to_nat (AnswerCount h))
                (fun i => DNSRR_FromBytes fuel DNSRR_zero i raw) i (Answer m) ;;
  '(i, ns) <- decode_section (Z.to_nat (AuthorityCount h))
                (fun i => DNSRR_FromBytes fuel DNSRR_zero i raw) i (Authority m) ;;
  '(i, ar) <- decode_section (Z.to_nat (AdditionalCount h))
                (fun i => DNSRR_FromBytes fuel DNSRR_zero i raw) i (Additional m) ;;
  Done (i, {| Header := h; Question := qs; Answer := an; Authority := ns;
              Additional := ar; raw_msg := raw |}).

Definition DNSMessage_FromBytes (fuel : nat) (m : DNSMessage)
    (bytes : list byte) : outcome DNSMessage :=
  '(_, m') <- DNSMessage_FromBytes_cursor fuel m bytes ;;
  Done m'.

(** ** The capture loop (scan.go, [msg_loop]) *)

Section Capture.

(** [net.Interface], [net.Addr] and the methods of [net.IP], the interface
    table of the host and the socket are outside the repository. *)
Variables Interface Addr : Type.
Variable IsMulticast : list byte -> bool.
Variable Equal : list byte -> list byte -> bool.
Variable InterfaceByIndex : Z -> option Interface.
(** [p.JoinGroup(&iface, mdns_addr) == nil] *)
Variable JoinGroup : Interface -> bool.
(** [p.SetControlMessageWrapper() == nil] *)
Variable SetControlMessageWrapper : bool.

Record DNSMsgInfo : Type := mkDNSMsgInfo {
  iface : Interface;
  peer : Addr;
  src : list byte;
  dst : list byte;
  msg : DNSMessage
}.

(** What [p.ReadFromWrapper(b)] gives back; [data] is [b[:n]]. *)
Inductive read_result : Type :=
| ReadTimeout
| ReadError
| ReadOk (peer : Addr) (idx : Z) (src dst : list byte) (data : list byte).

(** One turn of the [select]: the stop channel is ready, or the [default]
    branch runs and reads. *)
Inductive turn : Type :=
| StopReady
| Read (r : read_result).

(** How the loop was left; [Listening] when the turns given are used up. *)
Inductive loop_exit : Type :=
| Returned
| Fatal
| Crashed (p : panic)
| Hung
| Listening.

(** The [for { select { ... } }] of [msg_loop]; [sent] are the values sent
    on [dnsi_channel] so far, oldest first.  The separate [ip4_msg_loop] and
    [ip6_msg_loop] of the earlier version of scan.go have the same body, with
    [cm.Dst] for [dst]. *)
Fixpoint listen (fuel : nat) (mdns_ip : list byte) (turns : list turn)
    (sent : list DNSMsgInfo) : list DNSMsgInfo * loop_exit :=
  match turns with
  | [] => (sent, Listening)
  | StopReady :: _ => (sent, Returned)
  | Read ReadTimeout :: rest => listen fuel mdns_ip rest sent
  | Read ReadError :: _ => (sent, Fatal)
  | Read (ReadOk peer idx src dst data) :: rest =>
      if negb (IsMulticast dst) || negb (Equal dst mdns_ip)
      then listen fuel mdns_ip rest sent
      else
        match InterfaceByIndex idx with
        | None => (sent, Fatal)
        | Some iface =>
            match DNSMessage_FromBytes fuel DNSMessage_zero data with
            | Done m =>
                let dnsi := {| iface := iface; peer := peer; src := src;
                               dst := dst; msg := m |} in
                listen fuel mdns_ip rest (sent ++ [dnsi])
            | Panicked p => (sent, Crashed p)
            | OutOfFuel => (sent, Hung)
            end
        end
  end.

Definition msg_loop (fuel : nat) (mdns_ip : list byte)
    (ifaces : list Interface) (turns : list turn)
    : list DNSMsgInfo * loop_exit :=
  let n_joined := List.length (filter JoinGroup ifaces) in
  if (n_joined <? 1)%nat then ([], Returned)
  else if negb SetControlMessageWrapper then ([], Fatal)
  else listen fuel mdns_ip turns [].

(** [e] was built from a datagram of [turns] that was sent to the group
    [mdns_ip]. *)
Definition from_group_datagram (fuel : nat) (mdns_ip : list byte)
    (turns : list turn) (e : DNSMsgInfo) : Prop :=
  IsMulticast (dst e) = true
  /\ Equal (dst e) mdns_ip = true
  /\ exists idx data,
       In (Read (ReadOk (peer e) idx (src e) (dst e) data)) turns
       /\ InterfaceByIndex idx = Some (iface e)
       /\ DNSMessage_FromBytes fuel DNSMessage_zero data = Done (msg e).

End Capture.

Arguments ReadTimeout {Addr}.
Arguments ReadError {Addr}.
Arguments ReadOk {Addr} peer idx src dst data.
Arguments StopReady {Addr}.
Arguments Read {Addr} r.
Arguments iface {Interface Addr} d.
Arguments peer {Interface Addr} d.
Arguments src {Interface Addr} d.
Arguments dst {Interface Addr} d.
Arguments msg {Interface Addr} d.

(** ** The pointer chain of a label sequence

    What one turn of the loop of [parse_labels] does at offset [p], read off
    the buffer alone: it follows a compression pointer ([ptr_at], the offset
    the recursive call starts at) or it reads one label and goes on
    ([label_at], the offset of the next length byte). *)

Definition ptr_at (b : list byte) (max_i : Z) (allow_ptr : bool) (p : Z)
    : option Z :=
  if (max_i >? 0) && (p >=? max_i) then None
  else
    match index b p with
    | Done bi =>
        if allow_ptr && (Z.land (byte_val bi) ptr_bits =? ptr_bits) then
          match Uint16_at b p with
          | Done w => Some (Z.land w idx_bits)
          | _ => None
          end
        else None
    | _ => None
    end.

Definition label_at (b : list byte) (max_i : Z) (allow_ptr : bool) (p : Z)
    : option Z :=
  if (max_i >? 0) && (p >=? max_i) then None
  else
    match index b p with
    | Done bi =>
        if allow_ptr && (Z.land (byte_val bi) ptr_bits =? ptr_bits) then None
        else if byte_val bi =? 0 then None
        else
          match slice b (p + 1) (p + 1 + byte_val bi) with
          | Done _ => Some (p + 1 + byte_val bi)
          | _ => None
          end
    | _ => None
    end.

(** [walks b max_i allow_ptr s p]: the loop of the call started at offset [s]
    comes to test offset [p]. *)
Inductive walks (b : list byte) (max_i : Z) (allow_ptr : bool) (s : Z)
    : Z -> Prop :=
| walks_start : walks b max_i allow_ptr s s
| walks_label p q :
    walks b max_i allow_ptr s p ->
    label_at b max_i allow_ptr p = Some q ->
    walks b max_i allow_ptr s q.

(** [follows b max_i allow_ptr i0 s]: resolving from [i0] makes a call of
    [parse_labels] that starts at offset [s]. *)
Inductive follows (b : list byte) (max_i : Z) (allow_ptr : bool) (i0 : Z)
    : Z -> Prop :=
| follows_first : follows b max_i allow_ptr i0 i0
| follows_ptr s p t :
    follows b max_i allow_ptr i0 s ->
    walks b max_i allow_ptr s p ->
    ptr_at b max_i allow_ptr p = Some t ->
    follows b max_i allow_ptr i0 t.

(** Every pointer followed targets an offset strictly before the start of the
    label sequence it ends. *)
Definition backward_pointers (b : list byte) (max_i : Z) (allow_ptr : bool)
    (i0 : Z) : Prop :=
  forall s p t,
    follows b max_i allow_ptr i0 s ->
    walks b max_i allow_ptr s p ->
    ptr_at b max_i allow_ptr p = Some t ->
    t < s.

(** Fuel that is enough under [backward_pointers]: at most [i0 + 1] nested
    calls, each of at most [len b + 2] turns. *)
Definition step_bound (b : list byte) (i0 : Z) : nat :=
  ((Z.to_nat i0 + 1) * (List.length b + 2))%nat.

(** Test buffers are written as lists of numbers. *)
Definition bytes_of (l : list Z) : list byte :=
  map (fun z => match Byte.of_N (Z.to_N z) with Some x => x | None => x00 end) l.

(** A message header announcing one answer. *)
Definition header_one_answer : list Z := [0; 0; 0; 0; 0; 0; 0; 1; 0; 0; 0; 0].

(** One answer of the unassigned type 999 with six rdata bytes. *)
Definition answer_unknown_type : list byte :=
  bytes_of (header_one_answer
            ++ [0; 3; 231; 0; 1; 0; 0; 0; 120; 0; 6; 1; 2; 3; 4; 5; 6]).


(** One answer of type A, and one of type AAAA, with rdata length 0, at the
    end of the buffer. *)
Definition answer_A_empty : list byte :=
  bytes_of (header_one_answer ++ [0; 0; 1; 0; 1; 0; 0; 0; 120; 0; 0]).

Definition answer_AAAA_empty : list byte :=
  bytes_of (header_one_answer ++ [0; 0; 28; 0; 1; 0; 0; 0; 120; 0; 0]).

(** One question for [a.bc] and one PTR answer whose name is a pointer to
    the question name and whose rdata is [x] followed by the same pointer. *)
Definition query_and_answer : list byte :=
  bytes_of ([0; 0; 132; 0; 0; 1; 0; 1; 0; 0; 0; 0]
            ++ [1; 97; 2; 98; 99; 0; 0; 12; 0; 1]
            ++ [192; 12; 0; 12; 0; 1; 0; 0; 0; 120; 0; 4; 1; 120; 192; 12]).

(** A name [b] that ends in a pointer to the name [a] at offset 0. *)
Definition name_with_pointer : list byte :=
  bytes_of [1; 97; 0; 1; 98; 0xc0; 0].

(** ** Character strings of a TXT record, as the specification words them

    "One or more length-prefixed character strings within rdata ... raw
    length-prefixed strings only": every length byte is a length, whatever
    its two high bits.  This reader has no pointer case at all; it is compared
    below with what [parse_labels] does when [allow_ptr] is false. *)
Fixpoint raw_strings (fuel : nat) (i max_i : Z) (b : list byte)
    (results : list string) : outcome (Z * list string) :=
  match fuel with
  | O => OutOfFuel
  | S fuel' =>
      if (max_i >? 0) && (i >=? max_i) then Done (max_i + 1, results)
      else
        bi <- index b i ;;
        let l := byte_val bi in
        if l =? 0 then Done (i + 1, results)
        else
          s <- slice b (i + 1) (i + 1 + l) ;;
          raw_strings fuel' (i + 1 + l) max_i b (results ++ [go_string s])
  end.

(** One TXT answer whose rdata holds a string of 192 (0xc0) letters [a] and
    the string [b]. *)
Definition answer_txt : list byte :=
  bytes_of (header_one_answer ++ [0; 0; 16; 0; 1; 0; 0; 0; 120; 0; 195]
            ++ [192] ++ repeat 97 192 ++ [1; 98]).

(** One SRV answer for the name [s], priority 1, weight 2, port 80 and the
    target labels [a], [b]. *)
Definition answer_srv : list byte :=
  bytes_of (header_one_answer ++ [1; 115; 0; 0; 33; 0; 1; 0; 0; 0; 120; 0; 11]
            ++ [0; 1; 0; 2; 0; 80; 1; 97; 1; 98; 0]).

(** A host for the capture examples: interfaces and peers are numbers, the
    one interface has index 1, an address is multicast when its first byte
    has the high nibble [e], and two addresses are equal when their bytes
    are. *)
Definition ip_is_multicast (ip : list byte) : bool :=
  match ip with
  | x :: _ => Z.land (byte_val x) 0xf0 =? 0xe0
  | [] => false
  end.

Definition ip_equal (x y : list byte) : bool :=
  if list_eq_dec Byte.byte_eq_dec x y then true else false.

Definition one_interface (idx : Z) : option nat :=
  if idx =? 1 then Some 7%nat else None.

Definition mdns_group : list byte := bytes_of [224; 0; 0; 251].

(** A unicast datagram, a timeout, a datagram to the group, then the stop
    signal. *)
Definition capture_turns : list (turn nat) :=
  [ Read (ReadOk 5%nat 1 (bytes_of [10; 0; 0; 2]) (bytes_of [10; 0; 0; 1])
            query_and_answer);
    Read ReadTimeout;
    Read (ReadOk 6%nat 1 (bytes_of [10; 0; 0; 3]) mdns_group query_and_answer);
    StopReady ].

Definition group_event : DNSMsgInfo nat nat :=
  {| iface := 7%nat; peer := 6%nat; src := bytes_of [10; 0; 0; 3];
     dst := mdns_group;
     msg := match DNSMessage_FromBytes 8 DNSMessage_zero query_and_answer with
            | Done m => m
            | _ => DNSMessage_zero
            end |}.

(** ** Message header flags (DNS.go, const block and accessors)

    A [uint16] is a [Z] in [0, 65536); the accessors only mask and shift
    right, so nothing wraps. *)

Definition QRMask : Z := Z.shiftl 1 15.
Definition OpMask : Z := Z.shiftl 15 11.
Definition AAMask : Z := Z.shiftl 1 10.
Definition TCMask : Z := Z.shiftl 1 9.
Definition RDMask : Z := Z.shiftl 1 8.
Definition RAMask : Z := Z.shiftl 1 7.
Definition ZrMask : Z := Z.shiftl 1 6.
Definition ADMask : Z := Z.shiftl 1 5.
Definition CDMask : Z := Z.shiftl 1 4.
Definition RcMask : Z := 15.

Definition IsResponse (u : Z) : bool := Z.land u QRMask =? QRMask.
Definition OpCode (u : Z) : Z := Z.shiftr (Z.land u OpMask) 11.
Definition IsAuthoritative (u : Z) : bool := Z.land u AAMask =? AAMask.
Definition IsTruncated (u : Z) : bool := Z.land u TCMask =? TCMask.
Definition IsRecursionDesired (u : Z) : bool := Z.land u RDMask =? RDMask.
Definition IsRecursionAvailable (u : Z) : bool := Z.land u RAMask =? RAMask.
Definition IsAuthenticatedData (u : Z) : bool := Z.land u ADMask =? ADMask.
Definition IsCheckingDisabled (u : Z) : bool := Z.land u CDMask =? CDMask.
Definition Rcode (u : Z) : Z := Z.land u RcMask.

(** The maps [OpCodeToText] and [RcodeToText]; [None] is a missing key. *)
Definition OpCodeToText (k : Z) : option string :=
  if k =? 0 then Some "QUERY"%string
  else if k =? 2 then Some "STATUS"%string
  else if k =? 4 then Some "NOTIFY"%string
  else if k =? 5 then Some "UPDATE"%string
  else if k =? 6 then Some "DSO"%string
  else None.

Definition RcodeToText (k : Z) : option string :=
  if k =? 0 then Some "NOERROR"%string
  else if k =? 1 then Some "FORMERR"%string
  else if k =? 2 then Some "SERVFAIL"%string
  else if k =? 3 then Some "NXDOMAIN"%string
  else if k =? 4 then Some "NOTIMP"%string
  else if k =? 5 then Some "REFUSED"%string
  else if k =? 6 then Some "YXDOMAIN"%string
  else if k =? 7 then Some "YXRRSET"%string
  else if k =? 8 then Some "NXRRSET"%string
  else if k =? 9 then Some "NOTAUTH"%string
  else if k =? 10 then Some "NOTZONE"%string
  else None.

(** [v, _ = m[k]]: the value stored, or the zero value of a string. *)
Definition map_index (m : Z -> option string) (k : Z) : string :=
  match m k with
  | Some v => v
  | None => ""%string
  end.

(** The local [s] of [DNSMessageHeader.String]: the text between the braces.
    [oc] and [rc] start as "UNASSIGNED" and are then assigned from the
    maps. *)
Definition flags_text (fl : Z) : string :=
  let oc := map_index OpCodeToText (OpCode fl) in
  let rc := map_index RcodeToText (Rcode fl) in
  let s := (oc ++ " " ++ rc)%string in
  let s := if IsResponse fl then (s ++ " response")%string else s in
  let s := if IsAuthoritative fl then (s ++ " authoritative")%string else s in
  let s := if IsTruncated fl then (s ++ " truncated")%string else s in
  let s := if IsRecursionDesired fl
           then (s ++ " recursion_desired")%string else s in
  let s := if IsRecursionAvailable fl
           then (s ++ " recursion_available")%string else s in
  let s := if IsAuthenticatedData fl
           then (s ++ " authenticated")%string else s in
  let s := if IsCheckingDisabled fl
           then (s ++ " checking_disabled")%string else s in
  s.

(** ** The record tag of [rr_print]

    [rr_print] picks the four-letter tag [t] from the record type when it is
    given a [*DNSRRHeader] and from the dynamic type of the payload when it is
    given a [*DNSRR]. *)
Definition rr_print_tag_of_type (type : Z) : string :=
  if type =? A then "A   "
  else if type =? AAAA then "AAAA"
  else if type =? PTR then "PTR "
  else if type =? TXT then "TXT "
  else if type =? SRV then "SVR "
  else "UNK ".

Definition rr_print_tag_of_payload (p : payload) : string :=
  match p with
  | DNSPayloadA _ => "A   "
  | DNSPayloadAAAA _ => "AAAA"
  | DNSPayloadPtr _ => "PTR "
  | DNSPayloadTxt _ => "TXT "
  | DNSPayloadSrv _ _ _ _ => "SVR "
  | PayloadNil => "UNK "
  end.

(** ** Helpers for statements *)

(** The byte of value [z]. *)
Definition byte_of (z : Z) : byte :=
  match Byte.of_N (Z.to_N z) with
  | Some x => x
  | None => x00
  end.

(** The wire form of a label sequence without its end: each label behind its
    length byte ("[N][b1,b2,...bN]"). *)
Fixpoint encode_labels (ls : list (list byte)) : list byte :=
  match ls with
  | [] => []
  | l :: ls' => byte_of (len l) :: l ++ encode_labels ls'
  end.

(** The big-endian value of the two bytes at offset [i], 0 when they are not
    both there. *)
Definition be16_at (b : list byte) (i : Z) : Z :=
  match skipn (Z.to_nat i) b with
  | b0 :: b1 :: _ => 256 * byte_val b0 + byte_val b1
  | _ => 0
  end.

(** A label that can be written on the wire: one to 255 bytes, and below
    192 where a length byte with both high bits set is a pointer. *)
Definition label_ok (allow_ptr : bool) (l : list byte) : Prop :=
  1 <= len l < (if allow_ptr then 192 else 256).

(** The same sizes, on the strings returned. *)
Definition label_size_ok (allow_ptr : bool) (s : string) : Prop :=
  (1 <= String.length s <= if allow_ptr then 191 else 255)%nat.

(** [%d] of an unsigned value. *)
Definition fmt_d (n : Z) : string :=
  NilEmpty.string_of_uint (N.to_uint (Z.to_N n)).

(** [DNSMessageHeader.String]: [flags_text] between the braces of the final
    [Sprintf]. *)
Definition DNSMessageHeader_String (h : DNSMessageHeader) : string :=
  ("ID:" ++ fmt_d (Identification h)
   ++ " Flags:{" ++ flags_text (Flags h)
   ++ "} Question:" ++ fmt_d (QuestionCount h)
   ++ " Answer:" ++ fmt_d (AnswerCount h)
   ++ " Authority:" ++ fmt_d (AuthorityCount h)
   ++ " Additional:" ++ fmt_d (AdditionalCount h))%string.

(** One answer of type A with the rdata 1.2.3.4. *)
Definition answer_A : list byte :=
  bytes_of (header_one_answer
            ++ [0; 0; 1; 0; 1; 0; 0; 0; 120; 0; 4; 1; 2; 3; 4]).

(** * Properties *)

(** ** Outcomes and slices *)

Lemma terminated_bind {A B : Type} (m : outcome A) (k : A -> outcome B) :
  terminated m ->
  (forall a, m = Done a -> terminated (k a)) ->
  terminated (bind m k).
Proof.
  destruct m as [a | p | ]; simpl; intros Hm Hk.
  - apply Hk. reflexivity.
  - exact I.
  - contradiction.
Qed.

Lemma bind_Done {A B : Type} (m : outcome A) (k : A -> outcome B) (r : B) :
  bind m k = Done r -> exists a, m = Done a /\ k a = Done r.
Proof.
  destruct m as [a | p | ]; simpl; intros H; try discriminate.
  exists a. split; [reflexivity | exact H].
Qed.

Lemma Done_inj {A : Type} (x y : A) : Done x = Done y -> x = y.
Proof. intros H. injection H as H. exact H. Qed.

Lemma byte_val_nonneg (x : byte) : 0 <= byte_val x.
Proof. unfold byte_val. lia. Qed.

Lemma byte_val_lt_256 (x : byte) : byte_val x < 256.
Proof.
  unfold byte_val. pose proof (Byte.to_N_bounded x) as H. lia.
Qed.

Lemma index_Done (b : list byte) (i : Z) (x : byte) :
  index b i = Done x -> 0 <= i < len b.
Proof.
  unfold index.
  destruct ((0 <=? i) && (i <? len b)) eqn:E; [ | discriminate].
  intros _. apply andb_true_iff in E. lia.
Qed.

Lemma slice_Done (b : list byte) (lo hi : Z) (s : list byte) :
  slice b lo hi = Done s -> 0 <= lo /\ lo <= hi /\ hi <= len b.
Proof.
  unfold slice.
  destruct ((0 <=? lo) && (lo <=? hi) && (hi <=? len b)) eqn:E; [ | discriminate].
  intros _. apply andb_true_iff in E. destruct E as [E1 E3].
  apply andb_true_iff in E1. lia.
Qed.

Lemma parse_labels_loop_S (fuel : nat) (i max_i : Z) (b : list byte)
    (allow_ptr : bool) (results : list string) :
  parse_labels_loop (S fuel) i max_i b allow_ptr results =
  if (max_i >? 0) && (i >=? max_i) then Done (max_i + 1, results)
  else
    bi <- index b i ;;
    if allow_ptr && (Z.land (byte_val bi) ptr_bits =? ptr_bits) then
      w <- Uint16_at b i ;;
      '(_, new_results) <-
         parse_labels_loop fuel (Z.land w idx_bits) max_i b allow_ptr [] ;;
      Done (i + 2, results ++ new_results)
    else
      if byte_val bi =? 0 then Done (i + 1, results)
      else
        s <- slice b (i + 1) (i + 1 + byte_val bi) ;;
        parse_labels_loop fuel (i + 1 + byte_val bi) max_i b allow_ptr
          (results ++ [go_string s]).
Proof. reflexivity. Qed.

(** ** Termination of parse_labels *)

Section Termination.

Variables (b : list byte) (max_i : Z) (allow_ptr : bool).

(** One call: its loop ends once every call it makes on a pointer ends. *)
Lemma loop_terminates (s : Z) (F : nat) :
  (forall p t, walks b max_i allow_ptr s p ->
               ptr_at b max_i allow_ptr p = Some t ->
               forall fuel, (F <= fuel)%nat ->
               terminated (parse_labels_loop fuel t max_i b allow_ptr [])) ->
  forall (n : nat) (i : Z) (results : list string) (fuel : nat),
    walks b max_i allow_ptr s i ->
    len b - i <= Z.of_nat n ->
    (S n + F <= fuel)%nat ->
    terminated (parse_labels_loop fuel i max_i b allow_ptr results).
Proof.
  intros Hcall n.
  induction n as [ | n IH]; intros i results fuel Hw Hm Hf;
    (destruct fuel as [ | fuel]; [lia | ]);
    rewrite parse_labels_loop_S;
    (destruct ((max_i >? 0) && (i >=? max_i)) eqn:Eb; [exact I | ]);
    (destruct (index b i) as [bi | e | ] eqn:Ei; [ | exact I | ]).
  - apply index_Done in Ei. lia.
  - unfold index in Ei.
    destruct ((0 <=? i) && (i <? len b)); [ | discriminate].
    destruct (nth_error b (Z.to_nat i)); discriminate.
  - cbn [bind].
    destruct (allow_ptr && (Z.land (byte_val bi) ptr_bits =? ptr_bits)) eqn:Ep.
    + destruct (Uint16_at b i) as [w | e | ] eqn:Ew; [ | exact I | ].
      * cbn [bind]. apply terminated_bind.
        -- apply (Hcall i (Z.land w idx_bits) Hw); [ | lia].
           unfold ptr_at. rewrite Eb, Ei, Ep, Ew. reflexivity.
        -- intros [i' l'] _. exact I.
      * unfold Uint16_at, slice_from, slice in Ew.
        destruct ((0 <=? i) && (i <=? len b) && (len b <=? len b)); cbn in Ew;
          [ | discriminate].
        destruct (firstn _ _) as [ | ? [ | ? ?]]; discriminate.
    + destruct (byte_val bi =? 0) eqn:El; [exact I | ].
      destruct (slice b (i + 1) (i + 1 + byte_val bi)) as [sl | e | ] eqn:Es;
        [ | exact I | ].
      * cbn [bind]. apply IH.
        -- apply walks_label with (p := i); [exact Hw | ].
           unfold label_at. rewrite Eb, Ei, Ep, El, Es. reflexivity.
        -- apply Z.eqb_neq in El. pose proof (byte_val_nonneg bi). lia.
        -- lia.
      * unfold slice in Es.
        destruct ((0 <=? i + 1) && (i + 1 <=? i + 1 + byte_val bi)
                  && (i + 1 + byte_val bi <=? len b)); discriminate.
  - unfold index in Ei.
    destruct ((0 <=? i) && (i <? len b)); [ | discriminate].
    destruct (nth_error b (Z.to_nat i)); discriminate.
Qed.

Lemma ptr_at_nonneg (p t : Z) : ptr_at b max_i allow_ptr p = Some t -> 0 <= t.
Proof.
  unfold ptr_at.
  destruct ((max_i >? 0) && (p >=? max_i)); [discriminate | ].
  destruct (index b p) as [bi | | ]; try discriminate.
  destruct (allow_ptr && _); [ | discriminate].
  destruct (Uint16_at b p) as [w | | ]; try discriminate.
  intros H. injection H as <-.
  apply Z.land_nonneg. right. unfold idx_bits. lia.
Qed.

(** A call that starts out of range ends at its first turn. *)
Lemma negative_start_terminates (i : Z) (results : list string) (fuel : nat) :
  i < 0 ->
  terminated (parse_labels_loop (S fuel) i max_i b allow_ptr results).
Proof.
  intros Hi. rewrite parse_labels_loop_S.
  destruct ((max_i >? 0) && (i >=? max_i)); [exact I | ].
  unfold index.
  destruct ((0 <=? i) && (i <? len b)) eqn:E.
  - apply andb_true_iff in E. lia.
  - exact I.
Qed.

Lemma calls_terminate (i0 : Z) :
  backward_pointers b max_i allow_ptr i0 ->
  forall (k : nat) (s : Z),
    follows b max_i allow_ptr i0 s ->
    s <= Z.of_nat k ->
    forall fuel results,
      ((k + 1) * (List.length b + 2) <= fuel)%nat ->
      terminated (parse_labels_loop fuel s max_i b allow_ptr results).
Proof.
  intros Hback k.
  induction k as [ | k IH]; intros s Hs Hk fuel results Hf.
  - destruct (Z_lt_le_dec s 0) as [Hneg | Hpos].
    + destruct fuel as [ | fuel]; [lia | ].
      apply negative_start_terminates. exact Hneg.
    + apply loop_terminates with (s := s) (F := 0%nat) (n := S (List.length b)).
      * intros p t Hw Hp. pose proof (Hback s p t Hs Hw Hp).
        pose proof (ptr_at_nonneg p t Hp). lia.
      * apply walks_start.
      * unfold len. lia.
      * lia.
  - destruct (Z_lt_le_dec s 0) as [Hneg | Hpos].
    + destruct fuel as [ | fuel]; [lia | ].
      apply negative_start_terminates. exact Hneg.
    + apply loop_terminates with (s := s)
        (F := ((k + 1) * (List.length b + 2))%nat) (n := S (List.length b)).
      * intros p t Hw Hp fuel' Hf'.
        apply IH; [ | | exact Hf'].
        -- apply follows_ptr with (s := s) (p := p); assumption.
        -- pose proof (Hback s p t Hs Hw Hp). lia.
      * apply walks_start.
      * unfold len. lia.
      * lia.
Qed.

End Termination.

(** A buffer whose first two bytes are a compression pointer to offset 0. *)
Lemma self_pointer_out_of_fuel (fuel : nat) (results : list string) :
  parse_labels_loop fuel 0 (-1) (bytes_of [0xc0; 0]) true results = OutOfFuel.
Proof.
  revert results.
  induction fuel as [ | fuel IH]; intros results; [reflexivity | ].
  rewrite parse_labels_loop_S.
  change ((-1 >? 0) && (0 >=? -1)) with false. cbv iota.
  change (index (bytes_of [0xc0; 0]) 0) with (Done xc0). cbn [bind].
  change (true && (Z.land (byte_val xc0) ptr_bits =? ptr_bits)) with true.
  cbv iota.
  change (Uint16_at (bytes_of [0xc0; 0]) 0) with (Done 49152). cbn [bind].
  change (Z.land 49152 idx_bits) with 0.
  rewrite IH. reflexivity.
Qed.

(** C1, as stated, fails: the resolver has no hop limit and no set of visited
    offsets.  On the two-byte buffer [c0 00], whose pointer targets itself,
    no amount of fuel lets [parse_labels] come to an end; and on the empty
    buffer it ends in a run-time panic instead of returning labels. *)
Lemma C1_self_pointer_never_returns :
  (~ exists fuel, terminated (parse_labels fuel 0 (-1) (bytes_of [0xc0; 0]) true))
  /\ parse_labels 1 0 (-1) [] true = Panicked IndexOutOfRange.
Proof.
  split.
  - intros [fuel H]. unfold parse_labels in H.
    rewrite self_pointer_out_of_fuel in H. exact H.
  - reflexivity.
Qed.

(** C1, amended: when every compression pointer that is followed targets an
    offset strictly before the start of the label sequence it ends (and always
    when pointer following is off), [parse_labels] ends within
    [(i + 1) * (len b + 2)] loop turns and calls: it returns labels or stops in
    an out-of-range panic, and never runs on. *)
Theorem C1_parse_labels_terminates_backward
    (b : list byte) (max_i : Z) (allow_ptr : bool) (i : Z) (fuel : nat) :
  backward_pointers b max_i allow_ptr i ->
  (step_bound b i <= fuel)%nat ->
  terminated (parse_labels fuel i max_i b allow_ptr).
Proof.
  intros Hback Hf. unfold parse_labels.
  destruct (Z_lt_le_dec i 0) as [Hneg | Hpos].
  - destruct fuel as [ | fuel].
    + unfold step_bound in Hf. lia.
    + apply negative_start_terminates. exact Hneg.
  - apply calls_terminate with (i0 := i) (k := Z.to_nat i).
    + exact Hback.
    + apply follows_first.
    + lia.
    + exact Hf.
Qed.

(** With pointer following off no pointer is ever followed. *)
Lemma backward_pointers_no_ptr (b : list byte) (max_i i : Z) :
  backward_pointers b max_i false i.
Proof.
  intros s p t _ _ Hp. unfold ptr_at in Hp.
  destruct ((max_i >? 0) && (p >=? max_i)); [discriminate | ].
  destruct (index b p); discriminate.
Qed.

Lemma name_with_pointer_walks (s p : Z) :
  walks name_with_pointer (-1) true s p ->
  (s = 3 -> p = 3 \/ p = 5) /\ (s = 0 -> p = 0 \/ p = 2).
Proof.
  intros Hw. induction Hw as [ | p q Hw IH Hl].
  - split; intros ->; left; reflexivity.
  - destruct IH as [IH3 IH0]. split; intros ->.
    + destruct (IH3 eq_refl) as [-> | ->]; vm_compute in Hl.
      * injection Hl as <-. right. reflexivity.
      * discriminate.
    + destruct (IH0 eq_refl) as [-> | ->]; vm_compute in Hl.
      * injection Hl as <-. right. reflexivity.
      * discriminate.
Qed.

Lemma name_with_pointer_follows (s : Z) :
  follows name_with_pointer (-1) true 3 s -> s = 3 \/ s = 0.
Proof.
  intros Hf. induction Hf as [ | s p t Hf IH Hw Hp].
  - left. reflexivity.
  - apply name_with_pointer_walks in Hw. destruct Hw as [H3 H0].
    destruct IH as [-> | ->].
    + destruct (H3 eq_refl) as [-> | ->]; vm_compute in Hp.
      * discriminate.
      * injection Hp as <-. right. reflexivity.
    + destruct (H0 eq_refl) as [-> | ->]; vm_compute in Hp; discriminate.
Qed.

Lemma name_with_pointer_backward :
  backward_pointers name_with_pointer (-1) true 3.
Proof.
  intros s p t Hf Hw Hp.
  apply name_with_pointer_follows in Hf.
  apply name_with_pointer_walks in Hw. destruct Hw as [H3 H0].
  destruct Hf as [-> | ->].
  - destruct (H3 eq_refl) as [-> | ->]; vm_compute in Hp.
    + discriminate.
    + injection Hp as <-. lia.
  - destruct (H0 eq_refl) as [-> | ->]; vm_compute in Hp; discriminate.
Qed.

Lemma C1_parse_labels_terminates_backward_witness :
  terminated (parse_labels 40 3 (-1) name_with_pointer true).
Proof.
  apply (C1_parse_labels_terminates_backward name_with_pointer (-1) true 3 40).
  - exact name_with_pointer_backward.
  - vm_compute. lia.
Defined.

(** ** Reads stay inside the buffer *)

Lemma slice_length (b : list byte) (lo hi : Z) (s : list byte) :
  slice b lo hi = Done s -> len s = hi - lo.
Proof.
  intros H. pose proof (slice_Done b lo hi s H) as Hr.
  unfold slice in H.
  destruct ((0 <=? lo) && (lo <=? hi) && (hi <=? len b)); [ | discriminate].
  injection H as <-. unfold len in *.
  rewrite length_firstn, length_skipn. lia.
Qed.

Lemma Uint16_nonneg (s : list byte) (w : Z) : Uint16 s = Done w -> 0 <= w.
Proof.
  destruct s as [ | b0 [ | b1 s]]; unfold Uint16; try discriminate.
  intros H. apply Done_inj in H. subst w.
  apply Z.lor_nonneg. split.
  - apply byte_val_nonneg.
  - rewrite Z.shiftl_nonneg. apply byte_val_nonneg.
Qed.

Lemma Uint16_at_Done (b : list byte) (i w : Z) :
  Uint16_at b i = Done w -> 0 <= i /\ i + 2 <= len b /\ 0 <= w.
Proof.
  unfold Uint16_at, slice_from. intros H.
  apply bind_Done in H. destruct H as [s [Hs Hw]].
  pose proof (slice_Done _ _ _ _ Hs) as Hr.
  pose proof (slice_length _ _ _ _ Hs) as Hl.
  pose proof (Uint16_nonneg _ _ Hw) as Hn.
  destruct s as [ | b0 [ | b1 s]]; simpl in Hw; try discriminate.
  unfold len in Hl at 1. simpl in Hl. lia.
Qed.


(** Without a section bound, a call that returns has moved forward and
    stopped inside the buffer. *)
Lemma parse_labels_loop_cursor (fuel : nat) :
  forall (i max_i : Z) (b : list byte) (allow_ptr : bool)
         (results : list string) (i' : Z) (l : list string),
    max_i <= 0 ->
    parse_labels_loop fuel i max_i b allow_ptr results = Done (i', l) ->
    0 <= i /\ i < i' <= len b.
Proof.
  induction fuel as [ | fuel IH]; intros i max_i b allow_ptr results i' l Hm H;
    [discriminate | ].
  rewrite parse_labels_loop_S in H.
  replace ((max_i >? 0) && (i >=? max_i)) with false in H
    by (symmetry; apply andb_false_iff; left; rewrite Z.gtb_ltb;
        apply Z.ltb_ge; lia).
  apply bind_Done in H. destruct H as [bi [Hi H]].
  apply index_Done in Hi.
  destruct (allow_ptr && (Z.land (byte_val bi) ptr_bits =? ptr_bits)).
  - apply bind_Done in H. destruct H as [w [Hw H]].
    apply Uint16_at_Done in Hw.
    apply bind_Done in H. destruct H as [[j nl] [_ H]].
    injection H as <- _. lia.
  - destruct (byte_val bi =? 0) eqn:El.
    + injection H as <- _. lia.
    + apply bind_Done in H. destruct H as [s [Hs H]].
      apply IH in H; [ | exact Hm].
      pose proof (byte_val_nonneg bi). lia.
Qed.

Lemma DNSRRHeader_FromBytes_cursor (fuel : nat) (i : Z) (b : list byte)
    (i' : Z) (h : DNSRRHeader) :
  DNSRRHeader_FromBytes fuel i b = Done (i', h) -> 0 <= i /\ i < i' <= len b.
Proof.
  unfold DNSRRHeader_FromBytes, parse_labels. intros H.
  apply bind_Done in H. destruct H as [[i1 l] [Hl H]].
  apply parse_labels_loop_cursor in Hl; [ | lia].
  apply bind_Done in H. destruct H as [ty [Hty H]].
  apply bind_Done in H. destruct H as [cl [Hcl H]].
  apply Uint16_at_Done in Hcl.
  injection H as <- _. lia.
Qed.

(** What [DNSRR.FromBytes] has done when it returns: the header ended at
    [i1], the declared rdata length is [rdlen], the rdata is the slice
    [b[i1+6 : i1+6+rdlen]] and the payload is what the switch gave. *)
Lemma DNSRR_FromBytes_Done (fuel : nat) (rr : DNSRR) (i : Z) (b : list byte)
    (i' : Z) (rr' : DNSRR) :
  DNSRR_FromBytes fuel rr i b = Done (i', rr') ->
  exists i1 rdlen,
    DNSRRHeader_FromBytes fuel i b = Done (i1, RR_Header rr')
    /\ Uint32_at b i1 = Done (TTL rr')
    /\ Uint16_at b (i1 + 4) = Done rdlen
    /\ slice b (i1 + 6) (i1 + 6 + rdlen) = Done (raw_payload rr')
    /\ decode_payload fuel (Type_ (RR_Header rr')) (i1 + 6) rdlen b (Payload rr)
       = Done (Payload rr')
    /\ i' = i1 + 6 + rdlen.
Proof.
  unfold DNSRR_FromBytes. intros H.
  apply bind_Done in H. destruct H as [[i1 hdr] [Hh H]].
  apply bind_Done in H. destruct H as [ttl [Ht H]].
  apply bind_Done in H. destruct H as [rdlen [Hr H]].
  apply bind_Done in H. destruct H as [raw [Hs H]].
  apply bind_Done in H. destruct H as [p [Hp H]].
  injection H as <- <-. cbn [RR_Header TTL Payload raw_payload].
  exists i1, rdlen.
  replace (i1 + 4 + 2) with (i1 + 6) in * by lia.
  repeat split; assumption.
Qed.

Lemma DNSRR_FromBytes_cursor (fuel : nat) (rr : DNSRR) (i : Z) (b : list byte)
    (i' : Z) (rr' : DNSRR) :
  DNSRR_FromBytes fuel rr i b = Done (i', rr') -> 0 <= i /\ i < i' <= len b.
Proof.
  intros H. apply DNSRR_FromBytes_Done in H.
  destruct H as [i1 [rdlen [Hh [_ [Hr [Hs [_ ->]]]]]]].
  apply DNSRRHeader_FromBytes_cursor in Hh.
  apply Uint16_at_Done in Hr. apply slice_Done in Hs. lia.
Qed.

Lemma decode_section_Done {T : Type} (dec : Z -> outcome (Z * T))
    (bound : Z) :
  (forall i i' x, dec i = Done (i', x) -> 0 <= i /\ i < i' <= bound) ->
  forall (n : nat) (i : Z) (section : list T) (i' : Z) (l : list T),
    decode_section n dec i section = Done (i', l) ->
    i <= bound ->
    i <= i' <= bound
    /\ List.length l = (List.length section + n)%nat.
Proof.
  intros Hdec n.
  induction n as [ | n IH]; intros i section i' l H Hi; simpl in H.
  - injection H as <- <-. split; [lia | ]. lia.
  - apply bind_Done in H. destruct H as [[i1 x] [Hx H]].
    apply Hdec in Hx.
    apply IH in H; [ | lia].
    rewrite length_app in H. simpl in H. lia.
Qed.

Lemma DNSMessageHeader_FromBytes_Done (b : list byte) (i' : Z)
    (h : DNSMessageHeader) :
  DNSMessageHeader_FromBytes 0 b = Done (i', h) ->
  i' = 12 /\ 12 <= len b
  /\ 0 <= QuestionCount h /\ 0 <= AnswerCount h
  /\ 0 <= AuthorityCount h /\ 0 <= AdditionalCount h.
Proof.
  unfold DNSMessageHeader_FromBytes. intros H.
  apply bind_Done in H. destruct H as [id [_ H]].
  apply bind_Done in H. destruct H as [fl [_ H]].
  apply bind_Done in H. destruct H as [qd [Hqd H]].
  apply bind_Done in H. destruct H as [an [Han H]].
  apply bind_Done in H. destruct H as [ns [Hns H]].
  apply bind_Done in H. destruct H as [ar [Har H]].
  apply Uint16_at_Done in Hqd, Han, Hns, Har.
  injection H as <- <-. cbn. lia.
Qed.

(** What [DNSMessage.FromBytes] has done when it returns. *)
Lemma DNSMessage_FromBytes_cursor_Done (fuel : nat) (m : DNSMessage)
    (bytes : list byte) (i : Z) (m' : DNSMessage) :
  DNSMessage_FromBytes_cursor fuel m bytes = Done (i, m') ->
  12 <= i <= len bytes
  /\ Z.of_nat (List.length (Question m'))
     = Z.of_nat (List.length (Question m)) + QuestionCount (Header m')
  /\ Z.of_nat (List.length (Answer m'))
     = Z.of_nat (List.length (Answer m)) + AnswerCount (Header m')
  /\ Z.of_nat (List.length (Authority m'))
     = Z.of_nat (List.length (Authority m)) + AuthorityCount (Header m')
  /\ Z.of_nat (List.length (Additional m'))
     = Z.of_nat (List.length (Additional m)) + AdditionalCount (Header m').
Proof.
  unfold DNSMessage_FromBytes_cursor. intros H.
  apply bind_Done in H. destruct H as [[i0 h] [Hh H]].
  apply DNSMessageHeader_FromBytes_Done in Hh.
  destruct Hh as [-> [Hlen [Hqd [Han [Hns Har]]]]].
  apply bind_Done in H. destruct H as [[i1 qs] [Hqs H]].
  apply (decode_section_Done _ (len bytes)) in Hqs;
    [ | intros ? ? ?; apply DNSRRHeader_FromBytes_cursor | exact Hlen].
  apply bind_Done in H. destruct H as [[i2 an] [Hans H]].
  apply (decode_section_Done _ (len bytes)) in Hans;
    [ | intros ? ? ?; apply DNSRR_FromBytes_cursor | lia].
  apply bind_Done in H. destruct H as [[i3 ns] [Haus H]].
  apply (decode_section_Done _ (len bytes)) in Haus;
    [ | intros ? ? ?; apply DNSRR_FromBytes_cursor | lia].
  apply bind_Done in H. destruct H as [[i4 ar] [Hads H]].
  apply (decode_section_Done _ (len bytes)) in Hads;
    [ | intros ? ? ?; apply DNSRR_FromBytes_cursor | lia].
  injection H as <- <-. cbn.
  repeat split; lia.
Qed.

(** ** The message decoder *)

Lemma short_header_panics (fuel : nat) (m : DNSMessage) (bytes : list byte) :
  len bytes < 12 -> crashed (DNSMessage_FromBytes fuel m bytes).
Proof.
  intros H.
  do 12 (destruct bytes as [ | ? bytes]; [exact I | ]).
  unfold len in H. cbn [List.length] in H. lia.
Qed.

(** C3: the code reads the address bytes of an A record with no check of its
    own (the source marks both reads "FIX THIS: BOUNDS CHECK").  An A record
    with rdata length 0 at the end of the buffer ends the run in an index
    panic; with four more bytes behind it the same record takes them as its
    address although its rdata is empty; and an AAAA record with rdata length
    0 at the end of the buffer ends in a slice panic. *)
Theorem C3_address_payload_read_unchecked :
  DNSMessage_FromBytes 8 DNSMessage_zero answer_A_empty
  = Panicked IndexOutOfRange
  /\ (exists m rr,
        DNSMessage_FromBytes 8 DNSMessage_zero
          (answer_A_empty ++ bytes_of [9; 9; 9; 9]) = Done m
        /\ Answer m = [rr]
        /\ raw_payload rr = []
        /\ Payload rr = DNSPayloadA (IPv4 x09 x09 x09 x09))
  /\ DNSMessage_FromBytes 8 DNSMessage_zero answer_AAAA_empty
     = Panicked SliceBoundsOutOfRange.
Proof.
  split; [vm_compute; reflexivity | split; [ | vm_compute; reflexivity]].
  eexists. eexists. split; [vm_compute; reflexivity | ].
  cbn [Answer raw_payload Payload]. repeat split; reflexivity.
Qed.

(** C4: whenever [DNSRR.FromBytes] returns, the next offset is the offset
    where the rdata begins (six bytes after the end of the record header, past
    the TTL and the length field) plus the declared rdata length, which is
    also the length of the retained rdata slice; the record type and the
    payload decode play no part in it. *)
Theorem C4_next_offset_is_rdata_start_plus_rdlen
    (fuel : nat) (rr : DNSRR) (i : Z) (b : list byte) (i' : Z) (rr' : DNSRR) :
  DNSRR_FromBytes fuel rr i b = Done (i', rr') ->
  exists i1 rdlen,
    DNSRRHeader_FromBytes fuel i b = Done (i1, RR_Header rr')
    /\ Uint16_at b (i1 + 4) = Done rdlen
    /\ len (raw_payload rr') = rdlen
    /\ i' = (i1 + 6) + rdlen.
Proof.
  intros H. apply DNSRR_FromBytes_Done in H.
  destruct H as [i1 [rdlen [Hh [_ [Hr [Hs [_ ->]]]]]]].
  exists i1, rdlen. repeat split; try assumption.
  apply slice_length in Hs. lia.
Qed.

Lemma C4_next_offset_is_rdata_start_plus_rdlen_witness :
  exists i1 rdlen,
    DNSRRHeader_FromBytes 8 12 answer_unknown_type
    = Done (i1, {| Name := ""; Type_ := 999; Class_ := 1 |})
    /\ Uint16_at answer_unknown_type (i1 + 4) = Done rdlen
    /\ len (bytes_of [1; 2; 3; 4; 5; 6]) = rdlen
    /\ 29 = (i1 + 6) + rdlen.
Proof.
  apply (C4_next_offset_is_rdata_start_plus_rdlen 8 DNSRR_zero 12
           answer_unknown_type 29
           {| RR_Header := {| Name := ""; Type_ := 999; Class_ := 1 |};
              TTL := 120; Payload := PayloadNil;
              raw_payload := bytes_of [1; 2; 3; 4; 5; 6] |}).
  vm_compute. reflexivity.
Defined.

(** C5: a message that [DNSMessage.FromBytes] decodes into a fresh
    [DNSMessage{}] (as [msg_loop] does) has as many questions, answers,
    authority and additional records as the four count fields of its header
    say. *)
Theorem C5_section_lengths_equal_counts
    (fuel : nat) (bytes : list byte) (m : DNSMessage) :
  DNSMessage_FromBytes fuel DNSMessage_zero bytes = Done m ->
  Z.of_nat (List.length (Question m)) = QuestionCount (Header m)
  /\ Z.of_nat (List.length (Answer m)) = AnswerCount (Header m)
  /\ Z.of_nat (List.length (Authority m)) = AuthorityCount (Header m)
  /\ Z.of_nat (List.length (Additional m)) = AdditionalCount (Header m).
Proof.
  unfold DNSMessage_FromBytes. intros H.
  apply bind_Done in H. destruct H as [[i m'] [H Hm]].
  apply Done_inj in Hm. subst m'.
  apply DNSMessage_FromBytes_cursor_Done in H.
  cbn [DNSMessage_zero Question Answer Authority Additional List.length] in H.
  lia.
Qed.

Lemma C5_section_lengths_equal_counts_witness :
  exists m,
    DNSMessage_FromBytes 8 DNSMessage_zero query_and_answer = Done m
    /\ Z.of_nat (List.length (Question m)) = 1
    /\ QuestionCount (Header m) = 1
    /\ Z.of_nat (List.length (Answer m)) = AnswerCount (Header m)
    /\ Z.of_nat (List.length (Authority m)) = AuthorityCount (Header m)
    /\ Z.of_nat (List.length (Additional m)) = AdditionalCount (Header m).
Proof.
  destruct (DNSMessage_FromBytes 8 DNSMessage_zero query_and_answer)
    as [m | p | ] eqn:E; [ | vm_compute in E; discriminate ..].
  exists m.
  destruct (C5_section_lengths_equal_counts 8 query_and_answer m E)
    as [Hq [Ha [Hn Hr]]].
  vm_compute in E. apply Done_inj in E. subst m.
  repeat split; try assumption; reflexivity.
Defined.

(** ** Payload decoding by record type *)

Lemma parse_labels_loop_no_ptr (fuel : nat) :
  forall (i max_i : Z) (b : list byte) (results : list string),
    parse_labels_loop fuel i max_i b false results
    = raw_strings fuel i max_i b results.
Proof.
  induction fuel as [ | fuel IH]; intros i max_i b results; [reflexivity | ].
  rewrite parse_labels_loop_S. cbn [raw_strings andb].
  destruct ((max_i >? 0) && (i >=? max_i)); [reflexivity | ].
  destruct (index b i) as [bi | p | ]; cbn [bind]; try reflexivity.
  destruct (byte_val bi =? 0); [reflexivity | ].
  destruct (slice b (i + 1) (i + 1 + byte_val bi)) as [s | p | ]; cbn [bind];
    try reflexivity.
  apply IH.
Qed.

Lemma decode_payload_TXT (fuel : nat) (i rdlen : Z) (b : list byte)
    (old : payload) :
  decode_payload fuel TXT i rdlen b old =
  '(_, l) <- parse_labels fuel i (i + rdlen) b false ;;
  Done (DNSPayloadTxt (Join l " ")).
Proof. reflexivity. Qed.

Lemma decode_payload_SRV (fuel : nat) (i rdlen : Z) (b : list byte)
    (old : payload) :
  decode_payload fuel SRV i rdlen b old =
  '(_, l) <- parse_labels fuel (i + 6) (i + rdlen) b true ;;
  priority <- Uint16_at b i ;;
  weight <- Uint16_at b (i + 2) ;;
  port <- Uint16_at b (i + 4) ;;
  Done (DNSPayloadSrv priority weight port (Join l " ")).
Proof. reflexivity. Qed.

Lemma decode_payload_unknown (fuel : nat) (type i rdlen : Z) (b : list byte)
    (old : payload) :
  type <> A -> type <> PTR -> type <> TXT -> type <> AAAA -> type <> SRV ->
  decode_payload fuel type i rdlen b old = Done old.
Proof.
  intros HA HP HT H4 HS. unfold decode_payload.
  apply Z.eqb_neq in HA, HP, HT, H4, HS.
  rewrite HA, HP, HT, H4, HS. reflexivity.
Qed.

Lemma slice_in_range (b : list byte) (lo hi : Z) :
  0 <= lo -> lo <= hi -> hi <= len b ->
  slice b lo hi = Done (firstn (Z.to_nat (hi - lo)) (skipn (Z.to_nat lo) b)).
Proof.
  intros H1 H2 H3. unfold slice.
  replace ((0 <=? lo) && (lo <=? hi) && (hi <=? len b)) with true;
    [reflexivity | ].
  symmetry. rewrite !andb_true_iff. repeat split; apply Z.leb_le; assumption.
Qed.

Lemma Uint32_at_in_range (b : list byte) (i : Z) :
  0 <= i -> i + 4 <= len b -> exists w, Uint32_at b i = Done w.
Proof.
  intros H1 H2. unfold Uint32_at, slice_from.
  rewrite slice_in_range by lia. cbn [bind].
  assert (Hl : (4 <= List.length
                       (firstn (Z.to_nat (len b - i)) (skipn (Z.to_nat i) b)))%nat).
  { rewrite length_firstn, length_skipn. unfold len in *. lia. }
  destruct (firstn _ _) as [ | b0 [ | b1 [ | b2 [ | b3 s]]]];
    cbn [List.length] in Hl; try lia.
  eexists. reflexivity.
Qed.

(** C7: when [DNSRR.FromBytes] returns a record of type TXT, its payload is the
    text payload made of the raw length-prefixed strings of the rdata (read
    from the start of the rdata, bounded by its end, by the reader that takes
    every length byte as a length and knows no pointers), joined with one
    space. *)
Theorem C7_txt_strings_raw_and_space_joined
    (fuel : nat) (rr : DNSRR) (i : Z) (b : list byte) (i' : Z) (rr' : DNSRR) :
  DNSRR_FromBytes fuel rr i b = Done (i', rr') ->
  Type_ (RR_Header rr') = TXT ->
  exists j l,
    raw_strings fuel (i' - len (raw_payload rr')) i' b [] = Done (j, l)
    /\ Payload rr' = DNSPayloadTxt (Join l " ").
Proof.
  intros H Hty. apply DNSRR_FromBytes_Done in H.
  destruct H as [i1 [rdlen [_ [_ [_ [Hs [Hp ->]]]]]]].
  apply slice_length in Hs.
  replace (i1 + 6 + rdlen - len (raw_payload rr')) with (i1 + 6) by lia.
  rewrite Hty, decode_payload_TXT in Hp.
  apply bind_Done in Hp. destruct Hp as [[j l] [Hl Hp]].
  apply Done_inj in Hp.
  unfold parse_labels in Hl. rewrite parse_labels_loop_no_ptr in Hl.
  exists j, l. split; [exact Hl | symmetry; exact Hp].
Qed.

Lemma C7_txt_strings_raw_and_space_joined_witness :
  exists rr,
    DNSRR_FromBytes 8 DNSRR_zero 12 answer_txt = Done (218, rr)
    /\ len (raw_payload rr) = 195
    /\ index answer_txt 23 = Done xc0
    /\ exists j l,
         raw_strings 8 (218 - len (raw_payload rr)) 218 answer_txt []
         = Done (j, l)
         /\ List.length l = 2%nat
         /\ Payload rr = DNSPayloadTxt (Join l " ").
Proof.
  destruct (DNSRR_FromBytes 8 DNSRR_zero 12 answer_txt)
    as [[i' rr] | p | ] eqn:E; [ | vm_compute in E; discriminate ..].
  assert (Hi : i' = 218).
  { vm_compute in E. apply Done_inj in E. congruence. }
  subst i'. exists rr. split; [reflexivity | ].
  assert (Hty : Type_ (RR_Header rr) = TXT).
  { vm_compute in E. apply Done_inj in E.
    injection E as <-. reflexivity. }
  destruct (C7_txt_strings_raw_and_space_joined 8 DNSRR_zero 12 answer_txt
              218 rr E Hty) as [j [l [Hl Hp]]].
  assert (Hraw : len (raw_payload rr) = 195).
  { vm_compute in E. apply Done_inj in E.
    injection E as <-. reflexivity. }
  split; [exact Hraw | ].
  split; [vm_compute; reflexivity | ].
  exists j, l. split; [exact Hl | ].
  split; [ | exact Hp].
  rewrite Hraw in Hl. vm_compute in Hl. apply Done_inj in Hl.
  injection Hl as _ <-. reflexivity.
Defined.

(** C8: a complete record (its header decodes and its declared rdata lies in
    the buffer) of a type other than A, PTR, TXT, AAAA and SRV always decodes:
    [DNSRR.FromBytes] returns, the payload is left nil (the fallback that
    [rr_print] shows as a count of rdata bytes) and [raw_payload] is exactly
    the [rdlen] bytes of the buffer that start at the rdata offset. *)
Theorem C8_unknown_type_keeps_raw_rdata
    (fuel : nat) (i : Z) (b : list byte) (i1 : Z) (hdr : DNSRRHeader)
    (rdlen : Z) :
  DNSRRHeader_FromBytes fuel i b = Done (i1, hdr) ->
  Type_ hdr <> A -> Type_ hdr <> PTR -> Type_ hdr <> TXT ->
  Type_ hdr <> AAAA -> Type_ hdr <> SRV ->
  Uint16_at b (i1 + 4) = Done rdlen ->
  i1 + 6 + rdlen <= len b ->
  exists ttl,
    DNSRR_FromBytes fuel DNSRR_zero i b
    = Done (i1 + 6 + rdlen,
            {| RR_Header := hdr; TTL := ttl; Payload := PayloadNil;
               raw_payload := firstn (Z.to_nat rdlen)
                                (skipn (Z.to_nat (i1 + 6)) b) |}).
Proof.
  intros Hh HA HP HT H4 HS Hr Hfit.
  pose proof (DNSRRHeader_FromBytes_cursor _ _ _ _ _ Hh) as Hc.
  pose proof (Uint16_at_Done _ _ _ Hr) as Hr'.
  destruct (Uint32_at_in_range b i1) as [ttl Httl]; [lia | lia | ].
  exists ttl. unfold DNSRR_FromBytes.
  rewrite Hh. cbn [bind]. rewrite Httl. cbn [bind]. rewrite Hr. cbn [bind].
  rewrite slice_in_range by lia. cbn [bind].
  rewrite decode_payload_unknown by assumption. cbn [bind DNSRR_zero Payload].
  replace (i1 + 4 + 2) with (i1 + 6) by lia.
  replace (i1 + 6 + rdlen - (i1 + 6)) with rdlen by lia.
  reflexivity.
Qed.

Lemma C8_unknown_type_keeps_raw_rdata_witness :
  exists ttl,
    DNSRR_FromBytes 8 DNSRR_zero 12 answer_unknown_type
    = Done (17 + 6 + 6,
            {| RR_Header := {| Name := ""; Type_ := 999; Class_ := 1 |};
               TTL := ttl; Payload := PayloadNil;
               raw_payload := firstn (Z.to_nat 6)
                                (skipn (Z.to_nat (17 + 6))
                                   answer_unknown_type) |}).
Proof.
  apply (C8_unknown_type_keeps_raw_rdata 8 12 answer_unknown_type 17
           {| Name := ""; Type_ := 999; Class_ := 1 |} 6).
  - vm_compute. reflexivity.
  - vm_compute. discriminate.
  - vm_compute. discriminate.
  - vm_compute. discriminate.
  - vm_compute. discriminate.
  - vm_compute. discriminate.
  - vm_compute. reflexivity.
  - vm_compute. discriminate.
Defined.

(** C10: when [DNSRR.FromBytes] returns a record of type SRV, its payload is
    the service payload whose text is the labels read from rdata offset +6
    (pointers followed, bounded by the end of the rdata) joined with one
    space, while the record name is the labels read at the record start
    joined with a dot. *)
Theorem C10_srv_target_space_joined
    (fuel : nat) (rr : DNSRR) (i : Z) (b : list byte) (i' : Z) (rr' : DNSRR) :
  DNSRR_FromBytes fuel rr i b = Done (i', rr') ->
  Type_ (RR_Header rr') = SRV ->
  exists j l priority weight port jn ln,
    parse_labels fuel (i' - len (raw_payload rr') + 6) i' b true = Done (j, l)
    /\ Payload rr' = DNSPayloadSrv priority weight port (Join l " ")
    /\ parse_labels fuel i (-1) b true = Done (jn, ln)
    /\ Name (RR_Header rr') = Join ln ".".
Proof.
  intros H Hty. apply DNSRR_FromBytes_Done in H.
  destruct H as [i1 [rdlen [Hh [_ [_ [Hs [Hp ->]]]]]]].
  apply slice_length in Hs.
  replace (i1 + 6 + rdlen - len (raw_payload rr') + 6) with (i1 + 6 + 6) by lia.
  rewrite Hty, decode_payload_SRV in Hp.
  apply bind_Done in Hp. destruct Hp as [[j l] [Hl Hp]].
  apply bind_Done in Hp. destruct Hp as [priority [_ Hp]].
  apply bind_Done in Hp. destruct Hp as [weight [_ Hp]].
  apply bind_Done in Hp. destruct Hp as [port [_ Hp]].
  apply Done_inj in Hp.
  unfold DNSRRHeader_FromBytes in Hh.
  apply bind_Done in Hh. destruct Hh as [[jn ln] [Hn Hh]].
  apply bind_Done in Hh. destruct Hh as [ty [_ Hh]].
  apply bind_Done in Hh. destruct Hh as [cl [_ Hh]].
  apply Done_inj in Hh.
  exists j, l, priority, weight, port, jn, ln.
  repeat split.
  - exact Hl.
  - symmetry. exact Hp.
  - exact Hn.
  - injection Hh as _ Hh. rewrite <- Hh. reflexivity.
Qed.

Lemma C10_srv_target_space_joined_witness :
  exists rr,
    DNSRR_FromBytes 8 DNSRR_zero 12 answer_srv = Done (36, rr)
    /\ Payload rr = DNSPayloadSrv 1 2 80 "a b"
    /\ exists j l priority weight port jn ln,
         parse_labels 8 (36 - len (raw_payload rr) + 6) 36 answer_srv true
         = Done (j, l)
         /\ Payload rr = DNSPayloadSrv priority weight port (Join l " ")
         /\ parse_labels 8 12 (-1) answer_srv true = Done (jn, ln)
         /\ Name (RR_Header rr) = Join ln ".".
Proof.
  destruct (DNSRR_FromBytes 8 DNSRR_zero 12 answer_srv)
    as [[i' rr] | p | ] eqn:E; [ | vm_compute in E; discriminate ..].
  assert (Hi : i' = 36).
  { vm_compute in E. apply Done_inj in E. congruence. }
  subst i'. exists rr. split; [reflexivity | ].
  assert (Hty : Type_ (RR_Header rr) = SRV).
  { vm_compute in E. apply Done_inj in E.
    injection E as <-. reflexivity. }
  split.
  - vm_compute in E. apply Done_inj in E. injection E as <-. reflexivity.
  - exact (C10_srv_target_space_joined 8 DNSRR_zero 12 answer_srv 36 rr E Hty).
Defined.

(** ** The capture loop *)

Section CaptureProperties.

Variables Interface Addr : Type.
Variable IsMulticast : list byte -> bool.
Variable Equal : list byte -> list byte -> bool.
Variable InterfaceByIndex : Z -> option Interface.
Variable JoinGroup : Interface -> bool.
Variable SetControlMessageWrapper : bool.

Let listen' := listen Interface Addr IsMulticast Equal InterfaceByIndex.
Let from_group :=
  from_group_datagram Interface Addr IsMulticast Equal InterfaceByIndex.

Lemma from_group_datagram_later (fuel : nat) (mdns_ip : list byte)
    (t : turn Addr) (turns : list (turn Addr)) (e : DNSMsgInfo Interface Addr) :
  from_group fuel mdns_ip turns e ->
  from_group fuel mdns_ip (t :: turns) e.
Proof.
  intros [H1 [H2 [idx [data [Hin H]]]]].
  split; [exact H1 | split; [exact H2 | ]].
  exists idx, data. split; [right; exact Hin | exact H].
Qed.

Lemma listen_sends_group_datagrams (fuel : nat) (mdns_ip : list byte) :
  forall (turns : list (turn Addr)) (sent : list (DNSMsgInfo Interface Addr))
         (e : DNSMsgInfo Interface Addr),
    In e (fst (listen' fuel mdns_ip turns sent)) ->
    In e sent \/ from_group fuel mdns_ip turns e.
Proof.
  unfold listen', from_group.
  induction turns as [ | t turns IH]; intros sent e Hin.
  - left. exact Hin.
  - destruct t as [ | [ | | pr idx sr ds data]]; cbn [listen] in Hin.
    + left. exact Hin.
    + apply IH in Hin. destruct Hin as [Hin | Hin]; [left; exact Hin | ].
      right. apply from_group_datagram_later. exact Hin.
    + left. exact Hin.
    + destruct (IsMulticast ds) eqn:Em; cbn [negb orb] in Hin.
      2:{ apply IH in Hin. destruct Hin as [Hin | Hin]; [left; exact Hin | ].
          right. apply from_group_datagram_later. exact Hin. }
      destruct (Equal ds mdns_ip) eqn:Ee; cbn [negb] in Hin.
      2:{ apply IH in Hin. destruct Hin as [Hin | Hin]; [left; exact Hin | ].
          right. apply from_group_datagram_later. exact Hin. }
      destruct (InterfaceByIndex idx) as [ifc | ] eqn:Ei; [ | left; exact Hin].
      destruct (DNSMessage_FromBytes fuel DNSMessage_zero data)
        as [m | p | ] eqn:Ed; [ | left; exact Hin ..].
      apply IH in Hin. destruct Hin as [Hin | Hin].
      * apply in_app_or in Hin. destruct Hin as [Hin | [<- | []]];
          [left; exact Hin | ].
        right. split; [exact Em | split; [exact Ee | ]].
        exists idx, data. cbn [peer src dst iface msg].
        split; [left; reflexivity | split; [exact Ei | exact Ed]].
      * right. apply from_group_datagram_later. exact Hin.
Qed.

(** C6: every value [msg_loop] sends on its output channel was built from a
    received datagram whose destination address is multicast and equal to the
    group address, and a datagram that fails either test is passed over: the
    loop goes on exactly as if it had not arrived, with nothing sent and no
    fatal exit. *)
Theorem C6_events_only_for_group_datagrams
    (fuel : nat) (mdns_ip : list byte) (ifaces : list Interface)
    (turns : list (turn Addr)) :
  (forall e,
     In e (fst (msg_loop Interface Addr IsMulticast Equal InterfaceByIndex
                  JoinGroup SetControlMessageWrapper fuel mdns_ip ifaces turns)) ->
     from_group fuel mdns_ip turns e)
  /\ (forall pr idx sr ds data rest sent,
        IsMulticast ds = false \/ Equal ds mdns_ip = false ->
        listen' fuel mdns_ip (Read (ReadOk pr idx sr ds data) :: rest) sent
        = listen' fuel mdns_ip rest sent).
Proof.
  split.
  - intros e Hin. unfold msg_loop in Hin.
    destruct (List.length (filter JoinGroup ifaces) <? 1)%nat;
      [contradiction | ].
    destruct (negb SetControlMessageWrapper); [contradiction | ].
    apply listen_sends_group_datagrams in Hin.
    destruct Hin as [[] | Hin]. exact Hin.
  - intros pr idx sr ds data rest sent Hno. unfold listen'. cbn [listen].
    destruct Hno as [-> | ->]; [reflexivity | ].
    rewrite orb_true_r. reflexivity.
Qed.

End CaptureProperties.

Lemma C6_events_only_for_group_datagrams_witness :
  fst (msg_loop nat nat ip_is_multicast ip_equal one_interface
         (fun _ => true) true 8 mdns_group [7%nat] capture_turns)
  = [group_event]
  /\ from_group_datagram nat nat ip_is_multicast ip_equal one_interface
       8 mdns_group capture_turns group_event.
Proof.
  split; [vm_compute; reflexivity | ].
  destruct (C6_events_only_for_group_datagrams nat nat ip_is_multicast
              ip_equal one_interface (fun _ => true) true 8 mdns_group
              [7%nat] capture_turns) as [H _].
  apply H. vm_compute. left. reflexivity.
Defined.

(** * More of the decoder and of the capture loop *)


(** * More of the decoder and of the capture loop *)

(** ** Header flags *)

Lemma land_pow2 (u k : Z) :
  0 <= k -> Z.land u (2 ^ k) = Z.b2z (Z.testbit u k) * 2 ^ k.
Proof.
  intros Hk. apply Z.bits_inj'. intros n Hn.
  rewrite Z.land_spec, Z.pow2_bits_eqb by exact Hk.
  destruct (Z.testbit u k) eqn:E; cbn [Z.b2z].
  - rewrite Z.mul_1_l, Z.pow2_bits_eqb by exact Hk.
    destruct (Z.eqb_spec k n) as [<- | Hne].
    + rewrite E. reflexivity.
    + apply andb_false_r.
  - rewrite Z.mul_0_l, Z.bits_0.
    destruct (Z.eqb_spec k n) as [<- | Hne].
    + rewrite E. reflexivity.
    + apply andb_false_r.
Qed.

Lemma mask_test_is_bit (u k : Z) :
  0 <= k -> (Z.land u (2 ^ k) =? 2 ^ k) = Z.testbit u k.
Proof.
  intros Hk. rewrite land_pow2 by exact Hk.
  assert (0 < 2 ^ k) by (apply Z.pow_pos_nonneg; lia).
  destruct (Z.testbit u k); cbn [Z.b2z].
  - rewrite Z.mul_1_l. apply Z.eqb_refl.
  - rewrite Z.mul_0_l. apply Z.eqb_neq. lia.
Qed.

Lemma flag_bits (u : Z) :
  IsResponse u = Z.testbit u 15
  /\ IsAuthoritative u = Z.testbit u 10
  /\ IsTruncated u = Z.testbit u 9
  /\ IsRecursionDesired u = Z.testbit u 8
  /\ IsRecursionAvailable u = Z.testbit u 7
  /\ IsAuthenticatedData u = Z.testbit u 5
  /\ IsCheckingDisabled u = Z.testbit u 4
  /\ OpCode u = (u / 2048) mod 16
  /\ Rcode u = u mod 16.
Proof.
  repeat split.
  - apply (mask_test_is_bit u 15). lia.
  - apply (mask_test_is_bit u 10). lia.
  - apply (mask_test_is_bit u 9). lia.
  - apply (mask_test_is_bit u 8). lia.
  - apply (mask_test_is_bit u 7). lia.
  - apply (mask_test_is_bit u 5). lia.
  - apply (mask_test_is_bit u 4). lia.
  - unfold OpCode. rewrite Z.shiftr_land.
    change (Z.shiftr OpMask 11) with (Z.ones 4).
    rewrite Z.land_ones by lia. rewrite Z.shiftr_div_pow2 by lia.
    reflexivity.
  - unfold Rcode. change RcMask with (Z.ones 4).
    rewrite Z.land_ones by lia. reflexivity.
Qed.

(** Each boolean accessor reads one bit of the flags word; [OpCode] is the
    four bits 11 to 14 and [Rcode] the four low bits, so both are below 16
    whatever the word. *)
Theorem flag_accessors_read_bits (u : Z) :
  (IsResponse u = Z.testbit u 15
   /\ IsAuthoritative u = Z.testbit u 10
   /\ IsTruncated u = Z.testbit u 9
   /\ IsRecursionDesired u = Z.testbit u 8
   /\ IsRecursionAvailable u = Z.testbit u 7
   /\ IsAuthenticatedData u = Z.testbit u 5
   /\ IsCheckingDisabled u = Z.testbit u 4
   /\ OpCode u = (u / 2048) mod 16
   /\ Rcode u = u mod 16)
  /\ 0 <= OpCode u < 16
  /\ 0 <= Rcode u < 16.
Proof.
  pose proof (flag_bits u) as H. split; [exact H | ].
  destruct H as [_ [_ [_ [_ [_ [_ [_ [-> ->]]]]]]]].
  split; apply Z.mod_pos_bound; lia.
Qed.

(** The accessors, with the reserved bit that has none, split a flags word
    without loss: a 16-bit word is rebuilt from what they return. *)
Theorem flags_rebuilt_from_accessors (u : Z) :
  0 <= u < 65536 ->
  u = Z.b2z (IsResponse u) * 32768
      + OpCode u * 2048
      + Z.b2z (IsAuthoritative u) * 1024
      + Z.b2z (IsTruncated u) * 512
      + Z.b2z (IsRecursionDesired u) * 256
      + Z.b2z (IsRecursionAvailable u) * 128
      + Z.land u ZrMask
      + Z.b2z (IsAuthenticatedData u) * 32
      + Z.b2z (IsCheckingDisabled u) * 16
      + Rcode u.
Proof.
  intros Hu.
  destruct (flag_bits u) as [-> [-> [-> [-> [-> [-> [-> [-> ->]]]]]]]].
  change ZrMask with (2 ^ 6). rewrite land_pow2 by lia.
  rewrite !Z.testbit_spec' by lia.
  change (2 ^ 15) with 32768. change (2 ^ 10) with 1024.
  change (2 ^ 9) with 512. change (2 ^ 8) with 256. change (2 ^ 7) with 128.
  change (2 ^ 6) with 64. change (2 ^ 5) with 32. change (2 ^ 4) with 16.
  Z.div_mod_to_equations. lia.
Qed.

Lemma flags_rebuilt_from_accessors_witness :
  0x8400 = Z.b2z (IsResponse 0x8400) * 32768
           + OpCode 0x8400 * 2048
           + Z.b2z (IsAuthoritative 0x8400) * 1024
           + Z.b2z (IsTruncated 0x8400) * 512
           + Z.b2z (IsRecursionDesired 0x8400) * 256
           + Z.b2z (IsRecursionAvailable 0x8400) * 128
           + Z.land 0x8400 ZrMask
           + Z.b2z (IsAuthenticatedData 0x8400) * 32
           + Z.b2z (IsCheckingDisabled 0x8400) * 16
           + Rcode 0x8400.
Proof. apply (flags_rebuilt_from_accessors 0x8400). lia. Defined.

(** ** The message header *)

Lemma be16_lor (b0 b1 : byte) :
  Z.lor (byte_val b1) (Z.shiftl (byte_val b0) 8)
  = 256 * byte_val b0 + byte_val b1.
Proof.
  pose proof (byte_val_nonneg b1) as H1.
  pose proof (byte_val_lt_256 b1) as H2.
  rewrite Z.shiftl_mul_pow2 by lia.
  assert (Hland : Z.land (byte_val b0 * 2 ^ 8) (byte_val b1) = 0).
  { apply Z.bits_inj'. intros n Hn.
    rewrite Z.land_spec, Z.bits_0.
    destruct (Z_lt_le_dec n 8) as [Hlt | Hge].
    - rewrite Z.mul_pow2_bits_low by exact Hlt. reflexivity.
    - replace (Z.testbit (byte_val b1) n) with false;
        [apply andb_false_r | ].
      symmetry. destruct (Z.eq_dec (byte_val b1) 0) as [-> | Hnz].
      + apply Z.bits_0.
      + apply Z.bits_above_log2; [exact H1 | ].
        apply Z.lt_le_trans with (m := 8); [ | exact Hge].
        apply Z.log2_lt_pow2; [lia | ]. change (2 ^ 8) with 256. lia. }
  rewrite Z.lor_comm, <- (Z.lxor_lor _ _ Hland),
    <- (Z.add_nocarry_lxor _ _ Hland).
  change (2 ^ 8) with 256. lia.
Qed.

Lemma be16_at_range (b : list byte) (i : Z) : 0 <= be16_at b i < 65536.
Proof.
  unfold be16_at.
  destruct (skipn (Z.to_nat i) b) as [ | b0 [ | b1 s]]; try lia.
  pose proof (byte_val_nonneg b0). pose proof (byte_val_lt_256 b0).
  pose proof (byte_val_nonneg b1). pose proof (byte_val_lt_256 b1).
  lia.
Qed.

(** A 16-bit read either has its two bytes and gives their big-endian value
    or panics. *)
Lemma Uint16_at_spec (b : list byte) (i : Z) :
  (0 <= i /\ i + 2 <= len b /\ Uint16_at b i = Done (be16_at b i))
  \/ (~ (0 <= i /\ i + 2 <= len b) /\ crashed (Uint16_at b i)).
Proof.
  unfold Uint16_at, slice_from, slice, be16_at.
  destruct ((0 <=? i) && (i <=? len b) && (len b <=? len b)) eqn:E.
  - apply andb_true_iff in E. destruct E as [E _].
    apply andb_true_iff in E. destruct E as [E1 E2].
    apply Z.leb_le in E1, E2. cbn [bind].
    rewrite firstn_all2 by (rewrite length_skipn; unfold len; lia).
    assert (Hl : len (skipn (Z.to_nat i) b) = len b - i).
    { unfold len. rewrite length_skipn. unfold len in E2. lia. }
    destruct (skipn (Z.to_nat i) b) as [ | b0 [ | b1 s]];
      unfold len in Hl at 1; cbn [List.length] in Hl.
    + right. split; [lia | exact I].
    + right. split; [lia | exact I].
    + left. split; [lia | split; [lia | ]].
      unfold Uint16. rewrite be16_lor. reflexivity.
  - right. split; [ | exact I].
    intros [H1 H2].
    rewrite !andb_false_iff in E. rewrite !Z.leb_gt in E. lia.
Qed.

(** [DNSMessageHeader.FromBytes] returns exactly when the twelve bytes from
    offset [i] are in the buffer, and panics otherwise.  It then returns
    [i + 12] and the six fields are the big-endian values of the six byte
    pairs, each below 65536. *)
Theorem header_decodes_iff_twelve_bytes (i : Z) (b : list byte) :
  (0 <= i /\ i + 12 <= len b ->
   DNSMessageHeader_FromBytes i b
   = Done (i + 12,
           {| Identification := be16_at b i;
              Flags := be16_at b (i + 2);
              QuestionCount := be16_at b (i + 4);
              AnswerCount := be16_at b (i + 6);
              AuthorityCount := be16_at b (i + 8);
              AdditionalCount := be16_at b (i + 10) |})
   /\ 0 <= be16_at b (i + 4) < 65536
   /\ 0 <= be16_at b (i + 6) < 65536
   /\ 0 <= be16_at b (i + 8) < 65536
   /\ 0 <= be16_at b (i + 10) < 65536)
  /\ (~ (0 <= i /\ i + 12 <= len b) ->
      crashed (DNSMessageHeader_FromBytes i b)).
Proof.
  unfold DNSMessageHeader_FromBytes.
  replace (i + 2 + 2) with (i + 4) by lia.
  replace (i + 4 + 2) with (i + 6) by lia.
  replace (i + 6 + 2) with (i + 8) by lia.
  replace (i + 8 + 2) with (i + 10) by lia.
  replace (i + 10 + 2) with (i + 12) by lia.
  split.
  - intros [H0 H12].
    destruct (Uint16_at_spec b i) as [[_ [_ ->]] | [Hn _]]; [ | lia].
    destruct (Uint16_at_spec b (i + 2)) as [[_ [_ ->]] | [Hn _]]; [ | lia].
    destruct (Uint16_at_spec b (i + 4)) as [[_ [_ ->]] | [Hn _]]; [ | lia].
    destruct (Uint16_at_spec b (i + 6)) as [[_ [_ ->]] | [Hn _]]; [ | lia].
    destruct (Uint16_at_spec b (i + 8)) as [[_ [_ ->]] | [Hn _]]; [ | lia].
    destruct (Uint16_at_spec b (i + 10)) as [[_ [_ ->]] | [Hn _]]; [ | lia].
    cbn [bind]. split; [reflexivity | ].
    repeat split; apply be16_at_range.
  - intros Hout.
    destruct (Uint16_at_spec b i) as [[? [? ->]] | [_ Hc]];
      [cbn [bind] | destruct (Uint16_at b i); try contradiction; exact I].
    destruct (Uint16_at_spec b (i + 2)) as [[? [? ->]] | [_ Hc]];
      [cbn [bind] | destruct (Uint16_at b (i + 2)); try contradiction; exact I].
    destruct (Uint16_at_spec b (i + 4)) as [[? [? ->]] | [_ Hc]];
      [cbn [bind] | destruct (Uint16_at b (i + 4)); try contradiction; exact I].
    destruct (Uint16_at_spec b (i + 6)) as [[? [? ->]] | [_ Hc]];
      [cbn [bind] | destruct (Uint16_at b (i + 6)); try contradiction; exact I].
    destruct (Uint16_at_spec b (i + 8)) as [[? [? ->]] | [_ Hc]];
      [cbn [bind] | destruct (Uint16_at b (i + 8)); try contradiction; exact I].
    destruct (Uint16_at_spec b (i + 10)) as [[? [? ->]] | [_ Hc]];
      [lia | destruct (Uint16_at b (i + 10)); try contradiction; exact I].
Qed.

Lemma header_decodes_iff_twelve_bytes_witness :
  DNSMessageHeader_FromBytes 0 query_and_answer
  = Done (12, {| Identification := 0; Flags := 0x8400; QuestionCount := 1;
                 AnswerCount := 1; AuthorityCount := 0;
                 AdditionalCount := 0 |})
  /\ crashed (DNSMessageHeader_FromBytes 0 (bytes_of [0; 0; 132; 0; 0])).
Proof.
  destruct (header_decodes_iff_twelve_bytes 0 query_and_answer) as [H _].
  destruct (header_decodes_iff_twelve_bytes 0 (bytes_of [0; 0; 132; 0; 0]))
    as [_ H'].
  split.
  - destruct H as [H _]; [vm_compute; split; discriminate | ].
    rewrite H. vm_compute. reflexivity.
  - apply H'. vm_compute. intros [_ Hle]. apply Hle. reflexivity.
Defined.

Lemma flags_text_unassigned_opcode (fl : Z) :
  OpCode fl <> 0 -> OpCode fl <> 2 -> OpCode fl <> 4 ->
  OpCode fl <> 5 -> OpCode fl <> 6 ->
  exists rest, flags_text fl = (" " ++ rest)%string.
Proof.
  intros H0 H2 H4 H5 H6.
  unfold flags_text, map_index, OpCodeToText.
  apply Z.eqb_neq in H0, H2, H4, H5, H6.
  rewrite H0, H2, H4, H5, H6.
  destruct (IsResponse fl), (IsAuthoritative fl), (IsTruncated fl),
    (IsRecursionDesired fl), (IsRecursionAvailable fl),
    (IsAuthenticatedData fl), (IsCheckingDisabled fl);
    eexists; cbn [String.append]; reflexivity.
Qed.

Example header_string_of_query :
  DNSMessageHeader_String
    {| Identification := 0; Flags := 0; QuestionCount := 1; AnswerCount := 0;
       AuthorityCount := 0; AdditionalCount := 0 |}
  = "ID:0 Flags:{QUERY NOERROR} Question:1 Answer:0 Authority:0 Additional:0"%string.
Proof. vm_compute. reflexivity. Qed.

(** The opcode text of [DNSMessageHeader.String] is the entry of
    [OpCodeToText], and empty when the opcode has none (1, 3, 7 to 15): the
    failed lookup overwrites the initial "UNASSIGNED", so the brace is then
    followed at once by the space that separates opcode and response code. *)
Theorem unassigned_opcode_prints_empty (h : DNSMessageHeader) :
  OpCode (Flags h) <> 0 -> OpCode (Flags h) <> 2 -> OpCode (Flags h) <> 4 ->
  OpCode (Flags h) <> 5 -> OpCode (Flags h) <> 6 ->
  exists rest,
    DNSMessageHeader_String h
    = ("ID:" ++ fmt_d (Identification h) ++ " Flags:{ " ++ rest)%string.
Proof.
  intros H0 H2 H4 H5 H6.
  destruct (flags_text_unassigned_opcode (Flags h) H0 H2 H4 H5 H6)
    as [rest Hrest].
  unfold DNSMessageHeader_String. rewrite Hrest.
  eexists. apply f_equal. apply f_equal.
  cbn [String.append]. reflexivity.
Qed.

Lemma unassigned_opcode_prints_empty_witness :
  exists rest,
    DNSMessageHeader_String
      {| Identification := 7; Flags := 0x0800; QuestionCount := 0;
         AnswerCount := 0; AuthorityCount := 0; AdditionalCount := 0 |}
    = ("ID:" ++ fmt_d 7 ++ " Flags:{ " ++ rest)%string.
Proof.
  apply (unassigned_opcode_prints_empty
           {| Identification := 7; Flags := 0x0800; QuestionCount := 0;
              AnswerCount := 0; AuthorityCount := 0; AdditionalCount := 0 |});
    vm_compute; discriminate.
Defined.

(** ** Names on the wire *)

Lemma len_app (x y : list byte) : len (x ++ y) = len x + len y.
Proof. unfold len. rewrite length_app. lia. Qed.

Lemma len_nonneg (x : list byte) : 0 <= len x.
Proof. unfold len. lia. Qed.

Lemma index_app_here (pre : list byte) (x : byte) (rest : list byte) :
  index (pre ++ x :: rest) (len pre) = Done x.
Proof.
  unfold index. pose proof (len_nonneg pre).
  replace ((0 <=? len pre) && (len pre <? len (pre ++ x :: rest))) with true.
  - unfold len. rewrite Nat2Z.id, nth_error_app2 by lia.
    rewrite Nat.sub_diag. reflexivity.
  - symmetry. apply andb_true_iff. split; [apply Z.leb_le; lia | ].
    apply Z.ltb_lt. rewrite len_app. unfold len. cbn [List.length]. lia.
Qed.

Lemma slice_app_here (pre l rest : list byte) :
  slice (pre ++ l ++ rest) (len pre) (len pre + len l) = Done l.
Proof.
  pose proof (len_nonneg pre). pose proof (len_nonneg l).
  pose proof (len_nonneg rest).
  rewrite slice_in_range by (rewrite ?len_app; lia).
  replace (len pre + len l - len pre) with (len l) by lia.
  unfold len. rewrite !Nat2Z.id.
  rewrite skipn_app, skipn_all, Nat.sub_diag. cbn [skipn app].
  rewrite firstn_app, firstn_all, Nat.sub_diag. cbn [firstn].
  apply f_equal. apply app_nil_r.
Qed.

Lemma byte_val_byte_of (z : Z) : 0 <= z < 256 -> byte_val (byte_of z) = z.
Proof.
  intros Hz. unfold byte_val, byte_of.
  destruct (Byte.of_N (Z.to_N z)) as [x | ] eqn:E.
  - apply Byte.to_of_N in E. rewrite E. lia.
  - apply Byte.of_N_None_iff in E. lia.
Qed.

(** Below 192 the two high bits of a length byte are not both set. *)
Lemma small_length_is_no_pointer (z : Z) :
  0 <= z < 192 -> (Z.land z ptr_bits =? ptr_bits) = false.
Proof.
  intros Hz. apply Z.eqb_neq. intros H.
  assert (H7 : Z.testbit (Z.land z ptr_bits) 7 = true)
    by (rewrite H; reflexivity).
  assert (H6 : Z.testbit (Z.land z ptr_bits) 6 = true)
    by (rewrite H; reflexivity).
  rewrite Z.land_spec in H6, H7.
  apply andb_true_iff in H6, H7. destruct H6 as [H6 _], H7 as [H7 _].
  rewrite Z.testbit_true in H6, H7 by lia.
  change (2 ^ 6) with 64 in H6. change (2 ^ 7) with 128 in H7.
  Z.div_mod_to_equations. lia.
Qed.

Ltac norm_app := repeat (progress (cbn [app]; rewrite <- ?app_assoc)).

(** Reading the labels of an encoded sequence, one loop turn for each. *)
Lemma parse_labels_loop_encoded (max_i : Z) (allow_ptr : bool)
    (tail : list byte) :
  forall (ls : list (list byte)) (pre b : list byte) (results : list string)
         (k : nat),
    b = pre ++ encode_labels ls ++ tail ->
    Forall (label_ok allow_ptr) ls ->
    max_i <= 0 \/ len pre + len (encode_labels ls) <= max_i ->
    parse_labels_loop (List.length ls + k) (len pre) max_i b allow_ptr results
    = parse_labels_loop k (len pre + len (encode_labels ls)) max_i b allow_ptr
        (results ++ map go_string ls).
Proof.
  induction ls as [ | l ls IH]; intros pre b results k Hb Hok Hmax.
  - cbn [encode_labels map List.length Nat.add]. unfold len at 2.
    cbn [List.length]. rewrite Z.add_0_r, app_nil_r. reflexivity.
  - inversion Hok as [ | l' ls' Hl Hls]. subst l' ls'.
    assert (Hl256 : 0 <= len l < 256)
      by (unfold label_ok in Hl; destruct allow_ptr; lia).
    cbn [encode_labels] in *.
    assert (Henc : len (byte_of (len l) :: l ++ encode_labels ls)
                   = 1 + len l + len (encode_labels ls)).
    { unfold len. cbn [List.length]. rewrite length_app. lia. }
    rewrite Henc in *.
    pose proof (len_nonneg (encode_labels ls)) as Hne.
    pose proof (len_nonneg pre) as Hnp.
    cbn [List.length Nat.add]. rewrite parse_labels_loop_S.
    replace ((max_i >? 0) && (len pre >=? max_i)) with false.
    2:{ symmetry. apply andb_false_iff.
        destruct Hmax as [Hmax | Hmax].
        - left. rewrite Z.gtb_ltb. apply Z.ltb_ge. exact Hmax.
        - right. rewrite Z.geb_leb. apply Z.leb_gt. lia. }
    assert (Hi : index b (len pre) = Done (byte_of (len l))).
    { rewrite Hb. cbn [app]. apply index_app_here. }
    rewrite Hi. cbn [bind]. rewrite byte_val_byte_of by exact Hl256.
    replace (allow_ptr && (Z.land (len l) ptr_bits =? ptr_bits)) with false.
    2:{ symmetry. destruct allow_ptr; [ | reflexivity].
        apply small_length_is_no_pointer. unfold label_ok in Hl. lia. }
    replace (len l =? 0) with false
      by (symmetry; apply Z.eqb_neq; unfold label_ok in Hl; lia).
    assert (Hs : slice b (len pre + 1) (len pre + 1 + len l) = Done l).
    { replace (len pre + 1) with (len (pre ++ [byte_of (len l)]))
        by (rewrite len_app; reflexivity).
      replace b
        with ((pre ++ [byte_of (len l)]) ++ l ++ (encode_labels ls ++ tail)).
      - apply slice_app_here.
      - rewrite Hb. norm_app. reflexivity. }
    rewrite Hs. cbn [bind].
    replace (len pre + 1 + len l) with (len (pre ++ byte_of (len l) :: l)).
    2:{ rewrite len_app. unfold len. cbn [List.length]. lia. }
    rewrite (IH (pre ++ byte_of (len l) :: l) b
               (results ++ [go_string l]) k).
    + rewrite <- app_assoc. cbn [map app].
      rewrite len_app. unfold len at 2. cbn [List.length].
      f_equal. unfold len. lia.
    + rewrite Hb. norm_app. reflexivity.
    + exact Hls.
    + destruct Hmax as [Hmax | Hmax]; [left; exact Hmax | right].
      rewrite len_app. unfold len at 2. cbn [List.length].
      unfold len in *. lia.
Qed.

(** A name written without compression reads back as its labels:
    [parse_labels], started on the wire form of [ls] followed by the zero
    byte, returns the labels and the offset just behind the zero byte,
    wherever the name lies in the buffer and with or without pointer
    following. *)
Theorem parse_labels_reads_encoded_name
    (fuel : nat) (allow_ptr : bool) (pre post : list byte)
    (ls : list (list byte)) :
  Forall (label_ok allow_ptr) ls ->
  (List.length ls < fuel)%nat ->
  parse_labels fuel (len pre) (-1)
    (pre ++ encode_labels ls ++ x00 :: post) allow_ptr
  = Done (len pre + len (encode_labels ls) + 1, map go_string ls).
Proof.
  intros Hok Hf. unfold parse_labels.
  destruct fuel as [ | fuel]; [lia | ].
  replace (S fuel) with (List.length ls + S (fuel - List.length ls))%nat by lia.
  rewrite (parse_labels_loop_encoded (-1) allow_ptr (x00 :: post) ls pre _
             [] _ eq_refl Hok) by (left; lia).
  rewrite parse_labels_loop_S.
  change ((-1 >? 0) && _) with false. cbv iota.
  replace (len pre + len (encode_labels ls))
    with (len (pre ++ encode_labels ls)) by apply len_app.
  rewrite app_assoc, index_app_here. cbn [bind].
  change (byte_val x00) with 0.
  rewrite andb_false_r. reflexivity.
Qed.

Lemma parse_labels_reads_encoded_name_witness :
  parse_labels 3 (len (bytes_of [7; 7])) (-1)
    (bytes_of [7; 7] ++ encode_labels [bytes_of [97]; bytes_of [98; 99]]
     ++ x00 :: bytes_of [9])
    true
  = Done (len (bytes_of [7; 7])
          + len (encode_labels [bytes_of [97]; bytes_of [98; 99]]) + 1,
          map go_string [bytes_of [97]; bytes_of [98; 99]]).
Proof.
  apply (parse_labels_reads_encoded_name 3 true (bytes_of [7; 7])
           (bytes_of [9]) [bytes_of [97]; bytes_of [98; 99]]).
  - repeat constructor; vm_compute; discriminate.
  - cbn [List.length]. lia.
Defined.

Lemma be16_at_app_here (pre : list byte) (b0 b1 : byte) (rest : list byte) :
  be16_at (pre ++ b0 :: b1 :: rest) (len pre)
  = 256 * byte_val b0 + byte_val b1.
Proof.
  unfold be16_at, len. rewrite Nat2Z.id.
  rewrite skipn_app, skipn_all, Nat.sub_diag. reflexivity.
Qed.

(** A name that ends in a compression pointer reads as its own labels
    followed by the labels found at the pointer's target, and the offset
    returned is the one just behind the two pointer bytes. *)
Theorem parse_labels_appends_pointer_target
    (fuel_t : nat) (pre post : list byte) (ls : list (list byte))
    (hi lo : byte) (jt : Z) (lt : list string) :
  Forall (label_ok true) ls ->
  Z.land (byte_val hi) ptr_bits = ptr_bits ->
  parse_labels fuel_t
    (Z.land (256 * byte_val hi + byte_val lo) idx_bits) (-1)
    (pre ++ encode_labels ls ++ hi :: lo :: post) true
  = Done (jt, lt) ->
  parse_labels (List.length ls + S fuel_t) (len pre) (-1)
    (pre ++ encode_labels ls ++ hi :: lo :: post) true
  = Done (len pre + len (encode_labels ls) + 2, map go_string ls ++ lt).
Proof.
  intros Hok Hptr Ht. unfold parse_labels in *.
  rewrite (parse_labels_loop_encoded (-1) true (hi :: lo :: post) ls pre _
             [] _ eq_refl Hok) by (left; lia).
  rewrite parse_labels_loop_S.
  change ((-1 >? 0) && _) with false. cbv iota.
  replace (len pre + len (encode_labels ls))
    with (len (pre ++ encode_labels ls)) by apply len_app.
  set (b := pre ++ encode_labels ls ++ hi :: lo :: post) in *.
  assert (Hb : b = (pre ++ encode_labels ls) ++ hi :: lo :: post)
    by (unfold b; rewrite app_assoc; reflexivity).
  assert (Hi : index b (len (pre ++ encode_labels ls)) = Done hi)
    by (rewrite Hb; apply index_app_here).
  rewrite Hi. cbn [bind].
  apply Z.eqb_eq in Hptr. rewrite Hptr. cbn [andb].
  destruct (Uint16_at_spec b (len (pre ++ encode_labels ls)))
    as [[_ [_ Hw]] | [Hout _]].
  - rewrite Hw. cbn [bind].
    rewrite Hb at 1. rewrite be16_at_app_here.
    rewrite Ht. cbn [bind app]. reflexivity.
  - exfalso. apply Hout. split; [apply len_nonneg | ].
    rewrite Hb. rewrite (len_app _ (hi :: lo :: post)).
    unfold len at 3. cbn [List.length]. lia.
Qed.

Lemma parse_labels_appends_pointer_target_witness :
  parse_labels (List.length [bytes_of [98]] + S 2) (len (bytes_of [1; 97; 0]))
    (-1)
    (bytes_of [1; 97; 0] ++ encode_labels [bytes_of [98]]
     ++ xc0 :: x00 :: [])
    true
  = Done (len (bytes_of [1; 97; 0]) + len (encode_labels [bytes_of [98]]) + 2,
          map go_string [bytes_of [98]] ++ ["a"%string]).
Proof.
  apply (parse_labels_appends_pointer_target 2 (bytes_of [1; 97; 0]) []
           [bytes_of [98]] xc0 x00 3 ["a"%string]).
  - repeat constructor; vm_compute; discriminate.
  - vm_compute. reflexivity.
  - vm_compute. reflexivity.
Defined.

(** The text of a TXT record whose rdata is a run of length-prefixed strings
    is these strings joined by single spaces, whatever their length bytes
    look like (up to 255) and whatever follows the rdata. *)
Theorem txt_payload_of_encoded_strings
    (fuel : nat) (pre post : list byte) (ls : list (list byte))
    (old : payload) :
  Forall (label_ok false) ls ->
  (List.length ls < fuel)%nat ->
  0 < len pre + len (encode_labels ls) ->
  decode_payload fuel TXT (len pre) (len (encode_labels ls))
    (pre ++ encode_labels ls ++ post) old
  = Done (DNSPayloadTxt (Join (map go_string ls) " ")).
Proof.
  intros Hok Hf Hpos. rewrite decode_payload_TXT. unfold parse_labels.
  destruct fuel as [ | fuel]; [lia | ].
  replace (S fuel) with (List.length ls + S (fuel - List.length ls))%nat by lia.
  rewrite (parse_labels_loop_encoded _ false post ls pre _ [] _ eq_refl Hok)
    by (right; lia).
  rewrite parse_labels_loop_S.
  replace ((len pre + len (encode_labels ls) >? 0)
           && (len pre + len (encode_labels ls)
               >=? len pre + len (encode_labels ls))) with true.
  - reflexivity.
  - symmetry. apply andb_true_iff. split.
    + rewrite Z.gtb_ltb. apply Z.ltb_lt. exact Hpos.
    + rewrite Z.geb_leb. apply Z.leb_refl.
Qed.

Lemma txt_payload_of_encoded_strings_witness :
  decode_payload 3 TXT (len (bytes_of [5])) 
    (len (encode_labels [repeat x61 200; bytes_of [98]]))
    (bytes_of [5] ++ encode_labels [repeat x61 200; bytes_of [98]]
     ++ bytes_of [3; 120])
    PayloadNil
  = Done (DNSPayloadTxt
            (Join (map go_string [repeat x61 200; bytes_of [98]]) " ")).
Proof.
  apply (txt_payload_of_encoded_strings 3 (bytes_of [5]) (bytes_of [3; 120])
           [repeat x61 200; bytes_of [98]] PayloadNil).
  - repeat constructor; vm_compute; discriminate.
  - cbn [List.length]. lia.
  - vm_compute. reflexivity.
Defined.

(** ** What parse_labels returns *)

Lemma go_string_length (s : list byte) :
  String.length (go_string s) = List.length s.
Proof.
  unfold go_string, string_of_list_byte.
  induction s as [ | x s IH]; [reflexivity | ].
  cbn [map string_of_list_ascii String.length List.length]. rewrite IH.
  reflexivity.
Qed.

Lemma big_length_is_pointer (x : byte) :
  192 <= byte_val x -> (Z.land (byte_val x) ptr_bits =? ptr_bits) = true.
Proof.
  intros H.
  destruct x; try reflexivity; exfalso; vm_compute in H; apply H; reflexivity.
Qed.

Lemma parse_labels_loop_label_sizes (fuel : nat) :
  forall (i max_i : Z) (b : list byte) (allow_ptr : bool)
         (results : list string) (i' : Z) (l : list string),
    parse_labels_loop fuel i max_i b allow_ptr results = Done (i', l) ->
    Forall (label_size_ok allow_ptr) results ->
    Forall (label_size_ok allow_ptr) l.
Proof.
  induction fuel as [ | fuel IH]; intros i max_i b allow_ptr results i' l H Hr;
    [discriminate | ].
  rewrite parse_labels_loop_S in H.
  destruct ((max_i >? 0) && (i >=? max_i)).
  { apply Done_inj in H. injection H as _ <-. exact Hr. }
  apply bind_Done in H. destruct H as [bi [Hi H]].
  destruct (allow_ptr && (Z.land (byte_val bi) ptr_bits =? ptr_bits)) eqn:Ep.
  - apply bind_Done in H. destruct H as [w [_ H]].
    apply bind_Done in H. destruct H as [[j nl] [Hn H]].
    apply Done_inj in H. injection H as _ <-.
    apply Forall_app. split; [exact Hr | ].
    apply (IH _ _ _ _ _ _ _ Hn). constructor.
  - destruct (byte_val bi =? 0) eqn:El.
    { apply Done_inj in H. injection H as _ <-. exact Hr. }
    apply bind_Done in H. destruct H as [s [Hs H]].
    apply (IH _ _ _ _ _ _ _ H).
    apply Forall_app. split; [exact Hr | ].
    constructor; [ | constructor].
    apply slice_length in Hs. apply Z.eqb_neq in El.
    pose proof (byte_val_nonneg bi) as H0.
    pose proof (byte_val_lt_256 bi) as H256.
    unfold label_size_ok. rewrite go_string_length.
    unfold len in Hs.
    destruct allow_ptr; [ | lia].
    cbn [andb] in Ep.
    destruct (Z_lt_le_dec (byte_val bi) 192) as [Hlt | Hge]; [lia | ].
    rewrite (big_length_is_pointer bi Hge) in Ep. discriminate.
Qed.

(** Every label [parse_labels] returns, its own or one reached through
    pointers, is non-empty and at most 255 bytes long, and at most 191 bytes
    when pointers are followed (a longer length byte has both high bits
    set). *)
Theorem parse_labels_label_sizes
    (fuel : nat) (i max_i : Z) (b : list byte) (allow_ptr : bool)
    (i' : Z) (l : list string) :
  parse_labels fuel i max_i b allow_ptr = Done (i', l) ->
  Forall (label_size_ok allow_ptr) l.
Proof.
  intros H. apply (parse_labels_loop_label_sizes _ _ _ _ _ _ _ _ H).
  constructor.
Qed.

Lemma parse_labels_label_sizes_witness :
  Forall (label_size_ok true) ["b"%string; "a"%string].
Proof.
  apply (parse_labels_label_sizes 10 3 (-1) name_with_pointer true 7).
  vm_compute. reflexivity.
Defined.

(** With pointer following off, [parse_labels] comes to an end on every
    buffer, from every offset and with every bound, within [len b + 1] loop
    turns: it returns or it stops in an out-of-range panic. *)
Theorem parse_labels_without_pointers_ends
    (fuel : nat) (i max_i : Z) (b : list byte) :
  (List.length b < fuel)%nat ->
  terminated (parse_labels fuel i max_i b false).
Proof.
  intros Hf. unfold parse_labels.
  destruct (Z_lt_le_dec i 0) as [Hneg | Hpos].
  - destruct fuel as [ | fuel]; [lia | ].
    apply negative_start_terminates. exact Hneg.
  - apply loop_terminates with (s := i) (F := 0%nat) (n := List.length b).
    + intros p t _ Hp. unfold ptr_at in Hp.
      destruct ((max_i >? 0) && (p >=? max_i)); [discriminate | ].
      destruct (index b p); discriminate.
    + apply walks_start.
    + unfold len. lia.
    + lia.
Qed.

Lemma parse_labels_without_pointers_ends_witness :
  terminated (parse_labels 3 0 (-1) (bytes_of [0xc0; 0]) false).
Proof.
  apply (parse_labels_without_pointers_ends 3 0 (-1) (bytes_of [0xc0; 0])).
  vm_compute. lia.
Defined.

(** ** Records and messages *)

Lemma DNSRRHeader_FromBytes_advance (fuel : nat) (i : Z) (b : list byte)
    (i' : Z) (h : DNSRRHeader) :
  DNSRRHeader_FromBytes fuel i b = Done (i', h) -> i + 5 <= i'.
Proof.
  unfold DNSRRHeader_FromBytes, parse_labels. intros H.
  apply bind_Done in H. destruct H as [[i1 l] [Hl H]].
  apply parse_labels_loop_cursor in Hl; [ | lia].
  apply bind_Done in H. destruct H as [ty [_ H]].
  apply bind_Done in H. destruct H as [cl [_ H]].
  apply Done_inj in H. injection H as <- _. lia.
Qed.

Lemma DNSRR_FromBytes_advance (fuel : nat) (rr : DNSRR) (i : Z)
    (b : list byte) (i' : Z) (rr' : DNSRR) :
  DNSRR_FromBytes fuel rr i b = Done (i', rr') -> i + 11 <= i'.
Proof.
  intros H. apply DNSRR_FromBytes_Done in H.
  destruct H as [i1 [rdlen [Hh [_ [Hr [_ [_ ->]]]]]]].
  apply DNSRRHeader_FromBytes_advance in Hh.
  apply Uint16_at_Done in Hr. lia.
Qed.

Lemma decode_section_advance {T : Type} (dec : Z -> outcome (Z * T))
    (k : Z) :
  (forall i i' x, dec i = Done (i', x) -> i + k <= i') ->
  forall (n : nat) (i : Z) (section : list T) (i' : Z) (l : list T),
    decode_section n dec i section = Done (i', l) ->
    i + k * Z.of_nat n <= i'.
Proof.
  intros Hdec n.
  induction n as [ | n IH]; intros i section i' l H; cbn [decode_section] in H.
  - apply Done_inj in H. injection H as <- _. lia.
  - apply bind_Done in H. destruct H as [[i1 x] [Hx H]].
    apply Hdec in Hx. apply IH in H. lia.
Qed.

(** A message that decodes holds the records its header announces: every
    question takes at least 5 bytes and every resource record at least 11, so
    the four counts are bounded by the size of the buffer. *)
Theorem decoded_counts_fit_buffer
    (fuel : nat) (m : DNSMessage) (bytes : list byte) (m' : DNSMessage) :
  DNSMessage_FromBytes fuel m bytes = Done m' ->
  12 + 5 * QuestionCount (Header m')
     + 11 * (AnswerCount (Header m') + AuthorityCount (Header m')
             + AdditionalCount (Header m'))
  <= len bytes.
Proof.
  unfold DNSMessage_FromBytes. intros H.
  apply bind_Done in H. destruct H as [[i m1] [H Hm]].
  apply Done_inj in Hm. subst m1.
  pose proof (DNSMessage_FromBytes_cursor_Done _ _ _ _ _ H) as [[_ Hend] _].
  unfold DNSMessage_FromBytes_cursor in H.
  apply bind_Done in H. destruct H as [[i0 h] [Hh H]].
  apply DNSMessageHeader_FromBytes_Done in Hh.
  destruct Hh as [-> [_ [Hqd [Han [Hns Har]]]]].
  apply bind_Done in H. destruct H as [[i1 qs] [Hqs H]].
  apply (decode_section_advance _ 5) in Hqs;
    [ | intros ? ? ?; apply DNSRRHeader_FromBytes_advance].
  apply bind_Done in H. destruct H as [[i2 an] [Hans H]].
  apply (decode_section_advance _ 11) in Hans;
    [ | intros ? ? ?; apply DNSRR_FromBytes_advance].
  apply bind_Done in H. destruct H as [[i3 ns] [Haus H]].
  apply (decode_section_advance _ 11) in Haus;
    [ | intros ? ? ?; apply DNSRR_FromBytes_advance].
  apply bind_Done in H. destruct H as [[i4 ar] [Hads H]].
  apply (decode_section_advance _ 11) in Hads;
    [ | intros ? ? ?; apply DNSRR_FromBytes_advance].
  apply Done_inj in H. injection H as <- <-. cbn [Header].
  rewrite Z2Nat.id in Hqs, Hans, Haus, Hads by assumption.
  lia.
Qed.

Lemma decoded_counts_fit_buffer_witness :
  exists m,
    DNSMessage_FromBytes 8 DNSMessage_zero query_and_answer = Done m
    /\ 12 + 5 * QuestionCount (Header m)
          + 11 * (AnswerCount (Header m) + AuthorityCount (Header m)
                  + AdditionalCount (Header m))
       <= len query_and_answer.
Proof.
  destruct (DNSMessage_FromBytes 8 DNSMessage_zero query_and_answer)
    as [m | p | ] eqn:E; [ | vm_compute in E; discriminate ..].
  exists m. split; [reflexivity | ].
  exact (decoded_counts_fit_buffer 8 DNSMessage_zero query_and_answer m E).
Defined.

Lemma decode_section_from_empty {T : Type} (dec : Z -> outcome (Z * T)) :
  forall (n : nat) (i : Z) (section : list T),
    decode_section n dec i section
    = '(i', l) <- decode_section n dec i [] ;; Done (i', section ++ l).
Proof.
  induction n as [ | n IH]; intros i section; cbn [decode_section].
  - cbn [bind]. rewrite app_nil_r. reflexivity.
  - destruct (dec i) as [[i1 x] | p | ]; cbn [bind]; try reflexivity.
    rewrite (IH i1 (section ++ [x])), (IH i1 ([] ++ [x])).
    destruct (decode_section n dec i1 []) as [[i2 l] | p | ]; cbn [bind];
      try reflexivity.
    rewrite <- app_assoc. reflexivity.
Qed.

(** [DNSMessage.FromBytes] appends: decoding into a message that already
    holds records keeps them, in order, in front of the records decoded from
    the buffer, while the header and the raw bytes are replaced; it fails
    exactly when decoding into a fresh message fails. *)
Theorem FromBytes_appends_to_receiver
    (fuel : nat) (m : DNSMessage) (bytes : list byte) :
  DNSMessage_FromBytes fuel m bytes
  = m0 <- DNSMessage_FromBytes fuel DNSMessage_zero bytes ;;
    Done {| Header := Header m0;
            Question := Question m ++ Question m0;
            Answer := Answer m ++ Answer m0;
            Authority := Authority m ++ Authority m0;
            Additional := Additional m ++ Additional m0;
            raw_msg := bytes |}.
Proof.
  unfold DNSMessage_FromBytes, DNSMessage_FromBytes_cursor.
  cbn [DNSMessage_zero Question Answer Authority Additional].
  destruct (DNSMessageHeader_FromBytes 0 bytes) as [[i0 h] | p | ];
    cbn [bind]; try reflexivity.
  rewrite (decode_section_from_empty _ _ _ (Question m)).
  destruct (decode_section (Z.to_nat (QuestionCount h)) _ i0 [])
    as [[i1 qs] | p | ]; cbn [bind]; try reflexivity.
  rewrite (decode_section_from_empty _ _ _ (Answer m)).
  destruct (decode_section (Z.to_nat (AnswerCount h)) _ i1 [])
    as [[i2 an] | p | ]; cbn [bind]; try reflexivity.
  rewrite (decode_section_from_empty _ _ _ (Authority m)).
  destruct (decode_section (Z.to_nat (AuthorityCount h)) _ i2 [])
    as [[i3 ns] | p | ]; cbn [bind]; try reflexivity.
  rewrite (decode_section_from_empty _ _ _ (Additional m)).
  destruct (decode_section (Z.to_nat (AdditionalCount h)) _ i3 [])
    as [[i4 ar] | p | ]; cbn [bind]; reflexivity.
Qed.

(** The cases of the type switch of [DNSRR.FromBytes]. *)
Lemma decode_payload_kind (fuel : nat) (type i rdlen : Z) (b : list byte)
    (p : payload) :
  decode_payload fuel type i rdlen b PayloadNil = Done p ->
  rr_print_tag_of_payload p = rr_print_tag_of_type type.
Proof.
  unfold decode_payload, rr_print_tag_of_type. intros H.
  destruct (type =? A) eqn:EA.
  { do 4 (apply bind_Done in H; destruct H as [? [_ H]]).
    apply Done_inj in H. subst p. reflexivity. }
  destruct (type =? PTR) eqn:EP.
  { apply Z.eqb_eq in EP. subst type.
    apply bind_Done in H. destruct H as [[? ?] [_ H]].
    apply Done_inj in H. subst p. reflexivity. }
  destruct (type =? TXT) eqn:ET.
  { apply Z.eqb_eq in ET. subst type.
    apply bind_Done in H. destruct H as [[? ?] [_ H]].
    apply Done_inj in H. subst p. reflexivity. }
  destruct (type =? AAAA) eqn:E4.
  { apply bind_Done in H. destruct H as [? [_ H]].
    apply Done_inj in H. subst p. reflexivity. }
  destruct (type =? SRV) eqn:ES.
  { apply bind_Done in H. destruct H as [[? ?] [_ H]].
    do 3 (apply bind_Done in H; destruct H as [? [_ H]]).
    apply Done_inj in H. subst p. reflexivity. }
  apply Done_inj in H. subst p. reflexivity.
Qed.

(** The two ways [rr_print] names a record agree on every record that
    [DNSRR.FromBytes] decodes into a fresh [DNSRR{}]: the dynamic type of the
    payload is fixed by the record type, and a record of any other type has a
    nil payload ("UNK "). *)
Theorem payload_kind_follows_record_type
    (fuel : nat) (i : Z) (b : list byte) (i' : Z) (rr' : DNSRR) :
  DNSRR_FromBytes fuel DNSRR_zero i b = Done (i', rr') ->
  rr_print_tag_of_payload (Payload rr')
  = rr_print_tag_of_type (Type_ (RR_Header rr')).
Proof.
  intros H. apply DNSRR_FromBytes_Done in H.
  destruct H as [i1 [rdlen [_ [_ [_ [_ [Hp _]]]]]]].
  cbn [DNSRR_zero Payload] in Hp.
  exact (decode_payload_kind _ _ _ _ _ _ Hp).
Qed.

Lemma payload_kind_follows_record_type_witness :
  exists rr,
    DNSRR_FromBytes 8 DNSRR_zero 12 answer_srv = Done (36, rr)
    /\ rr_print_tag_of_payload (Payload rr) = "SVR "%string
    /\ rr_print_tag_of_payload (Payload rr)
       = rr_print_tag_of_type (Type_ (RR_Header rr)).
Proof.
  destruct (DNSRR_FromBytes 8 DNSRR_zero 12 answer_srv)
    as [[i' rr] | p | ] eqn:E; [ | vm_compute in E; discriminate ..].
  assert (Hi : i' = 36).
  { vm_compute in E. apply Done_inj in E. congruence. }
  subst i'. exists rr. split; [reflexivity | ]. split.
  - vm_compute in E. apply Done_inj in E. injection E as <-. reflexivity.
  - exact (payload_kind_follows_record_type 8 12 answer_srv 36 rr E).
Defined.

Lemma slice_value (b : list byte) (lo hi : Z) (s : list byte) :
  slice b lo hi = Done s ->
  s = firstn (Z.to_nat (hi - lo)) (skipn (Z.to_nat lo) b).
Proof.
  unfold slice.
  destruct ((0 <=? lo) && (lo <=? hi) && (hi <=? len b)); [ | discriminate].
  intros H. apply Done_inj in H. symmetry. exact H.
Qed.

Lemma index_skipn (b : list byte) (s : Z) (k : nat) (x : byte) :
  0 <= s ->
  index b (s + Z.of_nat k) = Done x ->
  nth_error (skipn (Z.to_nat s) b) k = Some x.
Proof.
  intros Hs H. unfold index in H.
  destruct ((0 <=? s + Z.of_nat k) && (s + Z.of_nat k <? len b));
    [ | discriminate].
  rewrite nth_error_skipn.
  replace (Z.to_nat s + k)%nat with (Z.to_nat (s + Z.of_nat k)) by lia.
  destruct (nth_error b (Z.to_nat (s + Z.of_nat k))); [ | discriminate].
  apply Done_inj in H. subst. reflexivity.
Qed.

(** The address of an A record is the first four bytes of its rdata (in the
    16-byte form [net.IPv4] builds) and the address of an AAAA record is the
    first sixteen, whenever the declared rdata is that long. *)
Theorem address_payload_is_rdata_prefix
    (fuel : nat) (rr : DNSRR) (i : Z) (b : list byte) (i' : Z) (rr' : DNSRR) :
  DNSRR_FromBytes fuel rr i b = Done (i', rr') ->
  (Type_ (RR_Header rr') = A -> 4 <= len (raw_payload rr') ->
   Payload rr' = DNSPayloadA (v4InV6Prefix ++ firstn 4 (raw_payload rr')))
  /\ (Type_ (RR_Header rr') = AAAA -> 16 <= len (raw_payload rr') ->
      Payload rr' = DNSPayloadAAAA (firstn 16 (raw_payload rr'))).
Proof.
  intros H. apply DNSRR_FromBytes_Done in H.
  destruct H as [i1 [rdlen [Hh [_ [Hr [Hs [Hp _]]]]]]].
  pose proof (DNSRRHeader_FromBytes_cursor _ _ _ _ _ Hh) as Hc.
  pose proof (slice_length _ _ _ _ Hs) as Hlen.
  apply slice_value in Hs.
  replace (i1 + 6 + rdlen - (i1 + 6)) with rdlen in * by lia.
  split; intros Hty Hlong; rewrite Hty in Hp.
  - change (decode_payload fuel A (i1 + 6) rdlen b (Payload rr))
      with (b0 <- index b (i1 + 6 + 0) ;;
            b1 <- index b (i1 + 6 + 1) ;;
            b2 <- index b (i1 + 6 + 2) ;;
            b3 <- index b (i1 + 6 + 3) ;;
            Done (DNSPayloadA (IPv4 b0 b1 b2 b3))) in Hp.
    apply bind_Done in Hp. destruct Hp as [b0 [H0 Hp]].
    apply bind_Done in Hp. destruct Hp as [b1 [H1 Hp]].
    apply bind_Done in Hp. destruct Hp as [b2 [H2 Hp]].
    apply bind_Done in Hp. destruct Hp as [b3 [H3 Hp]].
    apply Done_inj in Hp. rewrite <- Hp.
    apply (index_skipn b (i1 + 6) 0) in H0; [ | lia].
    apply (index_skipn b (i1 + 6) 1) in H1; [ | lia].
    apply (index_skipn b (i1 + 6) 2) in H2; [ | lia].
    apply (index_skipn b (i1 + 6) 3) in H3; [ | lia].
    rewrite Hs, firstn_firstn.
    replace (Nat.min 4 (Z.to_nat rdlen)) with 4%nat by lia.
    destruct (skipn (Z.to_nat (i1 + 6)) b) as [ | c0 [ | c1 [ | c2 [ | c3 r]]]];
      try discriminate.
    cbn [nth_error] in H0, H1, H2, H3.
    injection H0 as ->. injection H1 as ->.
    injection H2 as ->. injection H3 as ->.
    reflexivity.
  - change (decode_payload fuel AAAA (i1 + 6) rdlen b (Payload rr))
      with (ip <- slice b (i1 + 6) (i1 + 6 + 16) ;; Done (DNSPayloadAAAA ip))
      in Hp.
    apply bind_Done in Hp. destruct Hp as [ip [Hip Hp]].
    apply Done_inj in Hp. rewrite <- Hp.
    apply slice_value in Hip.
    replace (i1 + 6 + 16 - (i1 + 6)) with 16 in Hip by lia.
    rewrite Hs, firstn_firstn.
    replace (Nat.min 16 (Z.to_nat rdlen)) with 16%nat by lia.
    rewrite Hip. reflexivity.
Qed.

(** ** More of the capture loop *)

Section CaptureLoop.

Variables Interface Addr : Type.
Variable IsMulticast : list byte -> bool.
Variable Equal : list byte -> list byte -> bool.
Variable InterfaceByIndex : Z -> option Interface.
Variable JoinGroup : Interface -> bool.
Variable SetControlMessageWrapper : bool.

Let run := listen Interface Addr IsMulticast Equal InterfaceByIndex.

Lemma listen_keeps_sent (fuel : nat) (mdns_ip : list byte) :
  forall (turns : list (turn Addr)) (sent : list (DNSMsgInfo Interface Addr)),
    exists new, fst (run fuel mdns_ip turns sent) = sent ++ new.
Proof.
  unfold run.
  induction turns as [ | t turns IH]; intros sent.
  - exists []. cbn [listen fst]. rewrite app_nil_r. reflexivity.
  - destruct t as [ | [ | | pr idx sr ds data]]; cbn [listen].
    + exists []. cbn [fst]. rewrite app_nil_r. reflexivity.
    + apply IH.
    + exists []. cbn [fst]. rewrite app_nil_r. reflexivity.
    + destruct (negb (IsMulticast ds) || negb (Equal ds mdns_ip));
        [apply IH | ].
      destruct (InterfaceByIndex idx) as [ifc | ];
        [ | exists []; cbn [fst]; rewrite app_nil_r; reflexivity].
      destruct (DNSMessage_FromBytes fuel DNSMessage_zero data)
        as [m | p | ];
        [ | exists []; cbn [fst]; rewrite app_nil_r; reflexivity ..].
      destruct (IH (sent ++ [{| iface := ifc; peer := pr; src := sr;
                               dst := ds; msg := m |}])) as [new Hnew].
      eexists. rewrite Hnew, <- app_assoc. reflexivity.
Qed.

Lemma listen_continues (fuel : nat) (mdns_ip : list byte)
    (more : list (turn Addr)) :
  forall (turns : list (turn Addr)) (sent : list (DNSMsgInfo Interface Addr)),
    run fuel mdns_ip (turns ++ more) sent
    = match snd (run fuel mdns_ip turns sent) with
      | Listening => run fuel mdns_ip more (fst (run fuel mdns_ip turns sent))
      | _ => run fuel mdns_ip turns sent
      end.
Proof.
  unfold run.
  induction turns as [ | t turns IH]; intros sent; [reflexivity | ].
  destruct t as [ | [ | | pr idx sr ds data]]; cbn [listen app snd fst].
  - reflexivity.
  - apply IH.
  - reflexivity.
  - destruct (negb (IsMulticast ds) || negb (Equal ds mdns_ip));
      [apply IH | ].
    destruct (InterfaceByIndex idx) as [ifc | ]; [ | reflexivity].
    destruct (DNSMessage_FromBytes fuel DNSMessage_zero data) as [m | p | ];
      [apply IH | reflexivity ..].
Qed.

(** Once the loop has been left (stop signal, fatal read error, panic or
    endless decode) later turns change nothing; while it is still listening
    it goes on from what it has sent; and what has been sent stays, in
    order, at the front of what is sent later. *)
Theorem loop_exit_is_final (fuel : nat) (mdns_ip : list byte)
    (turns more : list (turn Addr)) (sent : list (DNSMsgInfo Interface Addr)) :
  (snd (run fuel mdns_ip turns sent) <> Listening ->
   run fuel mdns_ip (turns ++ more) sent = run fuel mdns_ip turns sent)
  /\ (snd (run fuel mdns_ip turns sent) = Listening ->
      run fuel mdns_ip (turns ++ more) sent
      = run fuel mdns_ip more (fst (run fuel mdns_ip turns sent)))
  /\ exists new,
       fst (run fuel mdns_ip (turns ++ more) sent)
       = fst (run fuel mdns_ip turns sent) ++ new.
Proof.
  pose proof (listen_continues fuel mdns_ip more turns sent) as H.
  split; [ | split].
  - intros Hne. rewrite H.
    destruct (snd (run fuel mdns_ip turns sent)); try reflexivity.
    contradiction.
  - intros He. rewrite H, He. reflexivity.
  - rewrite H.
    destruct (snd (run fuel mdns_ip turns sent));
      try (exists []; rewrite app_nil_r; reflexivity).
    apply listen_keeps_sent.
Qed.

(** A datagram sent to the group that is shorter than the 12-byte message
    header ends the loop in a run-time panic: nothing is sent for it and no
    later datagram is read. *)
Theorem short_group_datagram_ends_loop (fuel : nat) (mdns_ip : list byte)
    (pr : Addr) (idx : Z) (sr ds data : list byte) (ifc : Interface)
    (rest : list (turn Addr)) (sent : list (DNSMsgInfo Interface Addr)) :
  IsMulticast ds = true ->
  Equal ds mdns_ip = true ->
  InterfaceByIndex idx = Some ifc ->
  len data < 12 ->
  exists p,
    run fuel mdns_ip (Read (ReadOk pr idx sr ds data) :: rest) sent
    = (sent, Crashed p).
Proof.
  intros Hm He Hi Hshort. unfold run. cbn [listen].
  rewrite Hm, He, Hi. cbn [negb orb].
  pose proof (short_header_panics fuel DNSMessage_zero data Hshort) as Hc.
  destruct (DNSMessage_FromBytes fuel DNSMessage_zero data) as [m | p | ];
    try contradiction.
  exists p. reflexivity.
Qed.

(** When the group cannot be joined on any interface (or there is none),
    [msg_loop] returns at once: it reads no datagram and sends nothing. *)
Theorem no_group_joined_returns (fuel : nat) (mdns_ip : list byte)
    (ifaces : list Interface) (turns : list (turn Addr)) :
  (forall x, In x ifaces -> JoinGroup x = false) ->
  msg_loop Interface Addr IsMulticast Equal InterfaceByIndex JoinGroup
    SetControlMessageWrapper fuel mdns_ip ifaces turns
  = ([], Returned).
Proof.
  intros Hno. unfold msg_loop.
  replace (filter JoinGroup ifaces) with (@nil Interface); [reflexivity | ].
  symmetry. induction ifaces as [ | x xs IH]; [reflexivity | ].
  cbn [filter]. rewrite (Hno x) by (left; reflexivity).
  apply IH. intros y Hy. apply Hno. right. exact Hy.
Qed.

End CaptureLoop.

(** ** Bytes behind the last record *)

Section Trailing.

Variables (b extra : list byte).

Lemma index_app_l (i : Z) (x : byte) :
  index b i = Done x -> index (b ++ extra) i = Done x.
Proof.
  intros H. pose proof (index_Done _ _ _ H) as Hr.
  unfold index in *.
  replace ((0 <=? i) && (i <? len b)) with true in H
    by (symmetry; apply andb_true_iff; split;
        [apply Z.leb_le | apply Z.ltb_lt]; lia).
  replace ((0 <=? i) && (i <? len (b ++ extra))) with true.
  - rewrite nth_error_app1 by (unfold len in Hr; lia). exact H.
  - symmetry. apply andb_true_iff. rewrite len_app.
    pose proof (len_nonneg extra).
    split; [apply Z.leb_le | apply Z.ltb_lt]; lia.
Qed.

Lemma slice_app_l (lo hi : Z) (s : list byte) :
  slice b lo hi = Done s -> slice (b ++ extra) lo hi = Done s.
Proof.
  intros H. pose proof (slice_Done _ _ _ _ H) as Hr.
  apply slice_value in H. subst s.
  pose proof (len_nonneg extra).
  rewrite slice_in_range by (rewrite ?len_app; lia).
  apply f_equal. unfold len in Hr.
  rewrite skipn_app, firstn_app.
  replace (Z.to_nat (hi - lo) - List.length (skipn (Z.to_nat lo) b))%nat
    with 0%nat by (rewrite length_skipn; lia).
  cbn [firstn]. apply app_nil_r.
Qed.

Lemma Uint16_at_app_l (i w : Z) :
  Uint16_at b i = Done w -> Uint16_at (b ++ extra) i = Done w.
Proof.
  unfold Uint16_at, slice_from. intros H.
  apply bind_Done in H. destruct H as [s [Hs Hw]].
  pose proof (slice_Done _ _ _ _ Hs) as Hr.
  apply slice_value in Hs.
  pose proof (len_nonneg extra).
  rewrite slice_in_range by (rewrite ?len_app; lia). cbn [bind].
  rewrite firstn_all2 in Hs by (rewrite length_skipn; unfold len; lia).
  rewrite firstn_all2 by (rewrite length_skipn; unfold len; lia).
  rewrite skipn_app, <- Hs.
  destruct s as [ | b0 [ | b1 s]]; try discriminate. exact Hw.
Qed.

Lemma Uint32_at_app_l (i w : Z) :
  Uint32_at b i = Done w -> Uint32_at (b ++ extra) i = Done w.
Proof.
  unfold Uint32_at, slice_from. intros H.
  apply bind_Done in H. destruct H as [s [Hs Hw]].
  pose proof (slice_Done _ _ _ _ Hs) as Hr.
  apply slice_value in Hs.
  pose proof (len_nonneg extra).
  rewrite slice_in_range by (rewrite ?len_app; lia). cbn [bind].
  rewrite firstn_all2 in Hs by (rewrite length_skipn; unfold len; lia).
  rewrite firstn_all2 by (rewrite length_skipn; unfold len; lia).
  rewrite skipn_app, <- Hs.
  destruct s as [ | b0 [ | b1 [ | b2 [ | b3 s]]]]; try discriminate. exact Hw.
Qed.

Lemma parse_labels_loop_app_l (fuel : nat) :
  forall (i max_i : Z) (allow_ptr : bool) (results : list string)
         (r : Z * list string),
    parse_labels_loop fuel i max_i b allow_ptr results = Done r ->
    parse_labels_loop fuel i max_i (b ++ extra) allow_ptr results = Done r.
Proof.
  induction fuel as [ | fuel IH]; intros i max_i allow_ptr results r H;
    [discriminate | ].
  rewrite parse_labels_loop_S in *.
  destruct ((max_i >? 0) && (i >=? max_i)); [exact H | ].
  apply bind_Done in H. destruct H as [bi [Hi H]].
  rewrite (index_app_l _ _ Hi). cbn [bind].
  destruct (allow_ptr && (Z.land (byte_val bi) ptr_bits =? ptr_bits)).
  - apply bind_Done in H. destruct H as [w [Hw H]].
    rewrite (Uint16_at_app_l _ _ Hw). cbn [bind].
    apply bind_Done in H. destruct H as [r' [Hr' H]].
    rewrite (IH _ _ _ _ _ Hr'). cbn [bind]. exact H.
  - destruct (byte_val bi =? 0); [exact H | ].
    apply bind_Done in H. destruct H as [s [Hs H]].
    rewrite (slice_app_l _ _ _ Hs). cbn [bind].
    apply IH. exact H.
Qed.

Lemma DNSRRHeader_FromBytes_app_l (fuel : nat) (i : Z)
    (r : Z * DNSRRHeader) :
  DNSRRHeader_FromBytes fuel i b = Done r ->
  DNSRRHeader_FromBytes fuel i (b ++ extra) = Done r.
Proof.
  unfold DNSRRHeader_FromBytes, parse_labels. intros H.
  apply bind_Done in H. destruct H as [[i1 l] [Hl H]].
  rewrite (parse_labels_loop_app_l _ _ _ _ _ _ Hl). cbn [bind].
  apply bind_Done in H. destruct H as [ty [Hty H]].
  rewrite (Uint16_at_app_l _ _ Hty). cbn [bind].
  apply bind_Done in H. destruct H as [cl [Hcl H]].
  rewrite (Uint16_at_app_l _ _ Hcl). cbn [bind]. exact H.
Qed.

Lemma decode_payload_app_l (fuel : nat) (type i rdlen : Z)
    (old p : payload) :
  decode_payload fuel type i rdlen b old = Done p ->
  decode_payload fuel type i rdlen (b ++ extra) old = Done p.
Proof.
  unfold decode_payload, parse_labels. intros H.
  destruct (type =? A).
  { apply bind_Done in H. destruct H as [b0 [H0 H]].
    apply bind_Done in H. destruct H as [b1 [H1 H]].
    apply bind_Done in H. destruct H as [b2 [H2 H]].
    apply bind_Done in H. destruct H as [b3 [H3 H]].
    rewrite (index_app_l _ _ H0), (index_app_l _ _ H1),
      (index_app_l _ _ H2), (index_app_l _ _ H3).
    exact H. }
  destruct (type =? PTR).
  { apply bind_Done in H. destruct H as [r [Hr H]].
    rewrite (parse_labels_loop_app_l _ _ _ _ _ _ Hr). exact H. }
  destruct (type =? TXT).
  { apply bind_Done in H. destruct H as [r [Hr H]].
    rewrite (parse_labels_loop_app_l _ _ _ _ _ _ Hr). exact H. }
  destruct (type =? AAAA).
  { apply bind_Done in H. destruct H as [ip [Hip H]].
    rewrite (slice_app_l _ _ _ Hip). exact H. }
  destruct (type =? SRV); [ | exact H].
  apply bind_Done in H. destruct H as [r [Hr H]].
  rewrite (parse_labels_loop_app_l _ _ _ _ _ _ Hr). cbn [bind].
  destruct r as [j l].
  apply bind_Done in H. destruct H as [pr [Hpr H]].
  apply bind_Done in H. destruct H as [we [Hwe H]].
  apply bind_Done in H. destruct H as [po [Hpo H]].
  rewrite (Uint16_at_app_l _ _ Hpr), (Uint16_at_app_l _ _ Hwe),
    (Uint16_at_app_l _ _ Hpo).
  exact H.
Qed.

Lemma DNSRR_FromBytes_app_l (fuel : nat) (rr : DNSRR) (i : Z)
    (r : Z * DNSRR) :
  DNSRR_FromBytes fuel rr i b = Done r ->
  DNSRR_FromBytes fuel rr i (b ++ extra) = Done r.
Proof.
  unfold DNSRR_FromBytes. intros H.
  apply bind_Done in H. destruct H as [[i1 hdr] [Hh H]].
  rewrite (DNSRRHeader_FromBytes_app_l _ _ _ Hh). cbn [bind].
  apply bind_Done in H. destruct H as [ttl [Ht H]].
  rewrite (Uint32_at_app_l _ _ Ht). cbn [bind].
  apply bind_Done in H. destruct H as [rdlen [Hr H]].
  rewrite (Uint16_at_app_l _ _ Hr). cbn [bind].
  apply bind_Done in H. destruct H as [raw [Hs H]].
  rewrite (slice_app_l _ _ _ Hs). cbn [bind].
  apply bind_Done in H. destruct H as [p [Hp H]].
  rewrite (decode_payload_app_l _ _ _ _ _ _ Hp). cbn [bind]. exact H.
Qed.

End Trailing.

Lemma decode_section_same {T : Type} (dec dec' : Z -> outcome (Z * T)) :
  (forall i r, dec i = Done r -> dec' i = Done r) ->
  forall (n : nat) (i : Z) (section : list T) (r : Z * list T),
    decode_section n dec i section = Done r ->
    decode_section n dec' i section = Done r.
Proof.
  intros Hd n.
  induction n as [ | n IH]; intros i section r H; cbn [decode_section] in *;
    [exact H | ].
  apply bind_Done in H. destruct H as [[i1 x] [Hx H]].
  rewrite (Hd _ _ Hx). cbn [bind]. apply IH. exact H.
Qed.

(** The decoder never looks whether the buffer is used up: bytes behind the
    last announced record change nothing but the copy of the raw message. *)
Theorem trailing_bytes_are_ignored
    (fuel : nat) (m : DNSMessage) (bytes extra : list byte) (m' : DNSMessage) :
  DNSMessage_FromBytes fuel m bytes = Done m' ->
  DNSMessage_FromBytes fuel m (bytes ++ extra)
  = Done {| Header := Header m'; Question := Question m';
            Answer := Answer m'; Authority := Authority m';
            Additional := Additional m'; raw_msg := bytes ++ extra |}.
Proof.
  unfold DNSMessage_FromBytes, DNSMessage_FromBytes_cursor. intros H.
  apply bind_Done in H. destruct H as [[i m1] [H Hm]].
  apply Done_inj in Hm. subst m1.
  apply bind_Done in H. destruct H as [[i0 h] [Hh H]].
  assert (Hh' : DNSMessageHeader_FromBytes 0 (bytes ++ extra) = Done (i0, h)).
  { unfold DNSMessageHeader_FromBytes in *.
    apply bind_Done in Hh. destruct Hh as [id [Hid Hh]].
    apply bind_Done in Hh. destruct Hh as [fl [Hfl Hh]].
    apply bind_Done in Hh. destruct Hh as [qd [Hqd Hh]].
    apply bind_Done in Hh. destruct Hh as [an [Han Hh]].
    apply bind_Done in Hh. destruct Hh as [ns [Hns Hh]].
    apply bind_Done in Hh. destruct Hh as [ar [Har Hh]].
    rewrite (Uint16_at_app_l _ extra _ _ Hid), (Uint16_at_app_l _ extra _ _ Hfl),
      (Uint16_at_app_l _ extra _ _ Hqd), (Uint16_at_app_l _ extra _ _ Han),
      (Uint16_at_app_l _ extra _ _ Hns), (Uint16_at_app_l _ extra _ _ Har).
    exact Hh. }
  rewrite Hh'. cbn [bind].
  apply bind_Done in H. destruct H as [[i1 qs] [Hqs H]].
  rewrite (decode_section_same _
             (fun i => DNSRRHeader_FromBytes fuel i (bytes ++ extra))
             (fun i r => DNSRRHeader_FromBytes_app_l bytes extra fuel i r)
             _ _ _ _ Hqs).
  cbn [bind].
  apply bind_Done in H. destruct H as [[i2 an] [Hans H]].
  rewrite (decode_section_same _
             (fun i => DNSRR_FromBytes fuel DNSRR_zero i (bytes ++ extra))
             (fun i r => DNSRR_FromBytes_app_l bytes extra fuel DNSRR_zero i r)
             _ _ _ _ Hans).
  cbn [bind].
  apply bind_Done in H. destruct H as [[i3 ns] [Haus H]].
  rewrite (decode_section_same _
             (fun i => DNSRR_FromBytes fuel DNSRR_zero i (bytes ++ extra))
             (fun i r => DNSRR_FromBytes_app_l bytes extra fuel DNSRR_zero i r)
             _ _ _ _ Haus).
  cbn [bind].
  apply bind_Done in H. destruct H as [[i4 ar] [Hads H]].
  rewrite (decode_section_same _
             (fun i => DNSRR_FromBytes fuel DNSRR_zero i (bytes ++ extra))
             (fun i r => DNSRR_FromBytes_app_l bytes extra fuel DNSRR_zero i r)
             _ _ _ _ Hads).
  cbn [bind].
  apply Done_inj in H. injection H as _ <-. reflexivity.
Qed.

(** ** Runs on concrete buffers and datagrams *)

Lemma address_payload_is_rdata_prefix_witness :
  exists rr,
    DNSRR_FromBytes 8 DNSRR_zero 12 answer_A = Done (27, rr)
    /\ raw_payload rr = bytes_of [1; 2; 3; 4]
    /\ Payload rr = DNSPayloadA (v4InV6Prefix ++ firstn 4 (raw_payload rr)).
Proof.
  destruct (DNSRR_FromBytes 8 DNSRR_zero 12 answer_A)
    as [[i' rr] | p | ] eqn:E; [ | vm_compute in E; discriminate ..].
  assert (Hi : i' = 27).
  { vm_compute in E. apply Done_inj in E. congruence. }
  subst i'. exists rr. split; [reflexivity | ].
  assert (Hraw : raw_payload rr = bytes_of [1; 2; 3; 4]).
  { vm_compute in E. apply Done_inj in E. injection E as <-. reflexivity. }
  split; [exact Hraw | ].
  destruct (address_payload_is_rdata_prefix 8 DNSRR_zero 12 answer_A 27 rr E)
    as [HA _].
  apply HA.
  - vm_compute in E. apply Done_inj in E. injection E as <-. reflexivity.
  - rewrite Hraw. vm_compute. discriminate.
Defined.

Lemma trailing_bytes_are_ignored_witness :
  exists m,
    DNSMessage_FromBytes 8 DNSMessage_zero query_and_answer = Done m
    /\ DNSMessage_FromBytes 8 DNSMessage_zero
         (query_and_answer ++ bytes_of [1; 2; 3])
       = Done {| Header := Header m; Question := Question m;
                 Answer := Answer m; Authority := Authority m;
                 Additional := Additional m;
                 raw_msg := query_and_answer ++ bytes_of [1; 2; 3] |}.
Proof.
  destruct (DNSMessage_FromBytes 8 DNSMessage_zero query_and_answer)
    as [m | p | ] eqn:E; [ | vm_compute in E; discriminate ..].
  exists m. split; [reflexivity | ].
  exact (trailing_bytes_are_ignored 8 DNSMessage_zero query_and_answer
           (bytes_of [1; 2; 3]) m E).
Defined.

Lemma loop_exit_is_final_witness :
  listen nat nat ip_is_multicast ip_equal one_interface 8 mdns_group
    (capture_turns
     ++ [Read (ReadOk 9%nat 1 (bytes_of [10; 0; 0; 4]) mdns_group
                 query_and_answer)])
    []
  = listen nat nat ip_is_multicast ip_equal one_interface 8 mdns_group
      capture_turns [].
Proof.
  destruct (loop_exit_is_final nat nat ip_is_multicast ip_equal one_interface
              8 mdns_group capture_turns
              [Read (ReadOk 9%nat 1 (bytes_of [10; 0; 0; 4]) mdns_group
                       query_and_answer)]
              []) as [H _].
  apply H. vm_compute. discriminate.
Defined.

Lemma short_group_datagram_ends_loop_witness :
  exists p,
    listen nat nat ip_is_multicast ip_equal one_interface 8 mdns_group
      (Read (ReadOk 6%nat 1 (bytes_of [10; 0; 0; 3]) mdns_group
               (bytes_of [0; 0; 0]))
       :: capture_turns)
      []
    = ([], Crashed p).
Proof.
  apply (short_group_datagram_ends_loop nat nat ip_is_multicast ip_equal
           one_interface 8 mdns_group 6%nat 1 (bytes_of [10; 0; 0; 3])
           mdns_group (bytes_of [0; 0; 0]) 7%nat capture_turns []).
  - vm_compute. reflexivity.
  - vm_compute. reflexivity.
  - vm_compute. reflexivity.
  - vm_compute. reflexivity.
Defined.

Lemma no_group_joined_returns_witness :
  msg_loop nat nat ip_is_multicast ip_equal one_interface (fun _ => false)
    true 8 mdns_group [7%nat; 8%nat] capture_turns
  = ([], Returned).
Proof.
  apply (no_group_joined_returns nat nat ip_is_multicast ip_equal
           one_interface (fun _ => false) true 8 mdns_group [7%nat; 8%nat]
           capture_turns).
  intros x _. reflexivity.
Defined.

(** ** Reads past the end of the buffer *)













(** ** The section bound *)

Section Cut.

Variables (b : list byte) (max_i : Z).
Hypothesis bound_positive : 0 < max_i.

(** The buffer without the bytes at offsets [max_i + 255] and beyond. *)
Let cut : list byte := firstn (Z.to_nat (max_i + 255)) b.

Lemma len_cut : len cut = Z.min (max_i + 255) (len b).
Proof. unfold cut, len. rewrite length_firstn. lia. Qed.

Lemma index_cut (p : Z) : p < max_i -> index cut p = index b p.
Proof.
  intros Hp. unfold index. rewrite len_cut.
  destruct ((0 <=? p) && (p <? len b)) eqn:E.
  - apply andb_true_iff in E. destruct E as [E1 E2].
    apply Z.leb_le in E1. apply Z.ltb_lt in E2.
    replace ((0 <=? p) && (p <? Z.min (max_i + 255) (len b))) with true
      by (symmetry; apply andb_true_iff; split;
          [apply Z.leb_le | apply Z.ltb_lt]; lia).
    unfold cut. rewrite nth_error_firstn.
    replace (Z.to_nat p <? Z.to_nat (max_i + 255))%nat with true
      by (symmetry; apply Nat.ltb_lt; lia).
    reflexivity.
  - replace ((0 <=? p) && (p <? Z.min (max_i + 255) (len b))) with false;
      [reflexivity | ].
    symmetry. apply andb_false_iff in E. apply andb_false_iff.
    rewrite Z.leb_gt, Z.ltb_ge in *. lia.
Qed.

Lemma slice_cut (lo hi : Z) :
  hi <= max_i + 255 -> slice cut lo hi = slice b lo hi.
Proof.
  intros Hhi. unfold slice. rewrite len_cut.
  destruct ((0 <=? lo) && (lo <=? hi) && (hi <=? len b)) eqn:E.
  - rewrite !andb_true_iff, !Z.leb_le in E.
    replace ((0 <=? lo) && (lo <=? hi)
             && (hi <=? Z.min (max_i + 255) (len b))) with true
      by (symmetry; rewrite !andb_true_iff, !Z.leb_le; lia).
    apply f_equal. unfold cut.
    rewrite skipn_firstn_comm, firstn_firstn.
    apply f_equal2; [lia | reflexivity].
  - replace ((0 <=? lo) && (lo <=? hi)
             && (hi <=? Z.min (max_i + 255) (len b))) with false;
      [reflexivity | ].
    symmetry. rewrite !andb_false_iff, !Z.leb_gt in *. lia.
Qed.

Lemma Uint16_firstn (k : nat) (s : list byte) :
  (2 <= k)%nat -> Uint16 (firstn k s) = Uint16 s.
Proof.
  intros Hk. destruct k as [ | [ | k]]; try lia.
  destruct s as [ | b0 [ | b1 s]]; reflexivity.
Qed.

Lemma Uint16_at_cut (p : Z) : p < max_i -> Uint16_at cut p = Uint16_at b p.
Proof.
  intros Hp. unfold Uint16_at, slice_from, slice. rewrite len_cut.
  destruct ((0 <=? p) && (p <=? len b) && (len b <=? len b)) eqn:E.
  - rewrite !andb_true_iff, !Z.leb_le in E.
    replace ((0 <=? p) && (p <=? Z.min (max_i + 255) (len b))
             && (Z.min (max_i + 255) (len b)
                 <=? Z.min (max_i + 255) (len b))) with true
      by (symmetry; rewrite !andb_true_iff, !Z.leb_le; lia).
    cbn [bind]. unfold cut.
    rewrite skipn_firstn_comm, firstn_firstn.
    rewrite (firstn_all2 (n := Z.to_nat (len b - p)))
      by (rewrite length_skipn; unfold len; lia).
    destruct (Z_le_gt_dec (len b) (max_i + 255)) as [Hle | Hgt].
    + rewrite firstn_all2; [reflexivity | ].
      rewrite length_skipn. unfold len in *. lia.
    + apply Uint16_firstn. lia.
  - replace ((0 <=? p) && (p <=? Z.min (max_i + 255) (len b))
             && (Z.min (max_i + 255) (len b)
                 <=? Z.min (max_i + 255) (len b))) with false;
      [reflexivity | ].
    symmetry. rewrite !andb_false_iff, !Z.leb_gt in *. lia.
Qed.

(** No call reads a byte at offset [max_i + 255] or beyond: on the buffer cut
    there every call gives what it gives on the whole buffer. *)
Lemma parse_labels_loop_cut (allow_ptr : bool) (fuel : nat) :
  forall (i : Z) (results : list string),
    parse_labels_loop fuel i max_i cut allow_ptr results
    = parse_labels_loop fuel i max_i b allow_ptr results.
Proof.
  induction fuel as [ | fuel IH]; intros i results; [reflexivity | ].
  rewrite !parse_labels_loop_S.
  destruct ((max_i >? 0) && (i >=? max_i)) eqn:Eb; [reflexivity | ].
  assert (Hi : i < max_i).
  { apply andb_false_iff in Eb. rewrite Z.gtb_ltb, Z.geb_leb in Eb.
    rewrite Z.ltb_ge, Z.leb_gt in Eb. lia. }
  rewrite (index_cut i Hi).
  destruct (index b i) as [bi | p | ]; cbn [bind]; try reflexivity.
  destruct (allow_ptr && (Z.land (byte_val bi) ptr_bits =? ptr_bits)).
  - rewrite (Uint16_at_cut i Hi).
    destruct (Uint16_at b i) as [w | p | ]; cbn [bind]; try reflexivity.
    rewrite IH. reflexivity.
  - destruct (byte_val bi =? 0); [reflexivity | ].
    pose proof (byte_val_lt_256 bi) as H256.
    rewrite slice_cut by lia.
    destruct (slice b (i + 1) (i + 1 + byte_val bi)) as [s | p | ];
      cbn [bind]; try reflexivity.
    apply IH.
Qed.

End Cut.

(** C9, as stated, fails: the bound is tested only before a length byte is
    read.  With bound 2, the label that starts at offset 0 with length 3 is
    read whole, bytes at offsets 2 and 3 included: two buffers that agree
    below the bound give different labels. *)
Lemma C9_label_read_across_bound :
  firstn 2 (bytes_of [3; 97; 98; 99]) = firstn 2 (bytes_of [3; 97; 120; 121])
  /\ parse_labels 8 0 2 (bytes_of [3; 97; 98; 99]) false
     = Done (3, ["abc"%string])
  /\ parse_labels 8 0 2 (bytes_of [3; 97; 120; 121]) false
     = Done (3, ["axy"%string]).
Proof. repeat split; vm_compute; reflexivity. Qed.

(** C9, amended: with a positive bound, the bound is tested before every
    length byte, of the call itself and of the calls it makes on pointers.
    A loop turn that starts at or past the bound returns at once with exactly
    the labels gathered so far (and the offset [max_i + 1]) without reading a
    byte; so a call on labels that end at the bound returns exactly these
    labels, whatever bytes follow the bound.  A label that starts before the
    bound is read whole, so a call can read past the bound, but never a byte
    at offset [max_i + 255] or beyond: it gives the same result on the buffer
    cut there. *)
Theorem C9_bound_reached_returns_accumulated
    (fuel : nat) (i max_i : Z) (b : list byte) (allow_ptr : bool)
    (results : list string) :
  0 < max_i ->
  (max_i <= i ->
   parse_labels_loop (S fuel) i max_i b allow_ptr results
   = Done (max_i + 1, results))
  /\ (forall pre ls sibling,
        b = pre ++ encode_labels ls ++ sibling ->
        Forall (label_ok allow_ptr) ls ->
        i = len pre ->
        max_i = len pre + len (encode_labels ls) ->
        parse_labels_loop (List.length ls + S fuel) i max_i b allow_ptr results
        = Done (max_i + 1, results ++ map go_string ls))
  /\ parse_labels_loop fuel i max_i (firstn (Z.to_nat (max_i + 255)) b)
       allow_ptr results
     = parse_labels_loop fuel i max_i b allow_ptr results.
Proof.
  intros H0.
  assert (Hturn : forall j res,
            max_i <= j ->
            parse_labels_loop (S fuel) j max_i b allow_ptr res
            = Done (max_i + 1, res)).
  { intros j res Hj. rewrite parse_labels_loop_S.
    replace ((max_i >? 0) && (j >=? max_i)) with true; [reflexivity | ].
    symmetry. apply andb_true_iff. split.
    - rewrite Z.gtb_ltb. apply Z.ltb_lt. exact H0.
    - rewrite Z.geb_leb. apply Z.leb_le. exact Hj. }
  split; [apply Hturn | split].
  - intros pre ls sibling Hb Hok Hi Hmax. subst i.
    rewrite (parse_labels_loop_encoded max_i allow_ptr sibling ls pre b
               results (S fuel) Hb Hok) by (right; lia).
    apply Hturn. lia.
  - apply parse_labels_loop_cut. exact H0.
Qed.

Lemma C9_bound_reached_returns_accumulated_witness :
  parse_labels_loop 1 4 2 (bytes_of [3; 97; 98; 99]) false ["abc"%string]
  = Done (2 + 1, ["abc"%string])
  /\ parse_labels_loop (List.length [bytes_of [97]] + 1) 0 2
       (bytes_of [1; 97; 1; 98; 0]) false []
     = Done (2 + 1, [] ++ map go_string [bytes_of [97]])
  /\ parse_labels_loop 8 0 2
       (firstn (Z.to_nat (2 + 255)) (bytes_of [3; 97; 98; 99] ++ repeat x61 300))
       false []
     = parse_labels_loop 8 0 2 (bytes_of [3; 97; 98; 99] ++ repeat x61 300)
         false [].
Proof.
  destruct (C9_bound_reached_returns_accumulated 0 4 2
              (bytes_of [3; 97; 98; 99]) false ["abc"%string])
    as [H1 _]; [lia | ].
  destruct (C9_bound_reached_returns_accumulated 0 0 2
              (bytes_of [1; 97; 1; 98; 0]) false [])
    as [_ [H2 _]]; [lia | ].
  destruct (C9_bound_reached_returns_accumulated 8 0 2
              (bytes_of [3; 97; 98; 99] ++ repeat x61 300) false [])
    as [_ [_ H3]]; [lia | ].
  split; [apply H1; lia | split; [ | exact H3]].
  apply (H2 [] [bytes_of [97]] (bytes_of [1; 98; 0])).
  - reflexivity.
  - repeat constructor; vm_compute; discriminate.
  - reflexivity.
  - reflexivity.
Defined.
